(** * Grafana controller: reconciliation loop of [controllers/grafana_controller.go]

    A shallow embedding of [Reconcile], [manageError], [manageSuccess] and
    [getGrafanaAdminUrl].  The cluster API, the process-wide configuration
    store, the event recorder and the [ControllerEvents] channel are state
    threaded through a small state monad; the outcome of every call to an
    external collaborator is supplied by an explicit record of outcomes. *)

From Stdlib Require Import ZArith DecimalString.
From stdpp Require Import base decidable option strings list gmap.

Local Open Scope Z_scope.
Local Open Scope string_scope.
Local Open Scope list_scope.

(** ** Errors *)

(** Go's [error] values as the controller observes them: the text returned by
    [Error()] and the API status reason that [errors.IsNotFound] and
    [errors.IsConflict] inspect. *)
Inductive StatusReason := ReasonUnknown | ReasonNotFound | ReasonConflict.

Record error := mkError { errReason : StatusReason; errText : string }.

#[global] Instance StatusReason_eq_dec : EqDecision StatusReason.
Proof. solve_decision. Defined.
#[global] Instance error_eq_dec : EqDecision error.
Proof. solve_decision. Defined.

Definition Error (e : error) : string := errText e.

Definition IsNotFound (e : error) : bool := bool_decide (errReason e = ReasonNotFound).
Definition IsConflict (e : error) : bool := bool_decide (errReason e = ReasonConflict).

(** [stdErr.New] *)
Definition New (text : string) : error := mkError ReasonUnknown text.

(** ** API types (fields the controller reads or writes) *)

(** [metav1.LabelSelector], kept to its match labels. *)
Record LabelSelector := { MatchLabels : list (string * string) }.

(** Modelled from the spec: the API type [GrafanaDashboardRef] is declared
    outside the controller file; a cached reference is a named entry carrying
    a content hash, and an invalid reference is one whose hash is cleared. *)
Record GrafanaDashboardRef := { RefName : string; RefHash : string }.

(** A Go slice [[]*GrafanaDashboardRef]: the slice may be nil (which
    [reflect.DeepEqual] tells apart from an empty slice) and each of its
    elements may be a nil pointer (which it tells apart from a reference). *)
Abbreviation DashboardRefs := (option (list (option GrafanaDashboardRef))).

(** Modelled from the spec: the phase enum [Reconciling] / [Failing];
    [PhaseUnset] is the zero value of a status that was never written. *)
Inductive StatusPhase := PhaseUnset | PhaseReconciling | PhaseFailing.

(** [cr.Spec.Client] *)
Record GrafanaClient := { TimeoutSeconds : option Z; PreferService : bool }.

(** [cr.Spec.Ingress] *)
Record GrafanaIngressSpec := { Hostname : string }.

Record GrafanaSpec := {
  Client : option GrafanaClient;
  Ingress : option GrafanaIngressSpec;
  DashboardLabelSelector : list LabelSelector;
  DashboardNamespaceSelector : option LabelSelector
}.

(** [cr.Status]; a Go map may be nil, which [reflect.DeepEqual] tells apart
    from an empty map, and so may each slice it holds. *)
Record GrafanaStatus := {
  Phase : StatusPhase;
  Message : string;
  InstalledDashboards : option (gmap string DashboardRefs)
}.

Record Grafana := { Spec : GrafanaSpec; Status : GrafanaStatus }.

#[global] Instance LabelSelector_eq_dec : EqDecision LabelSelector.
Proof. solve_decision. Defined.
#[global] Instance GrafanaDashboardRef_eq_dec : EqDecision GrafanaDashboardRef.
Proof. solve_decision. Defined.
#[global] Instance StatusPhase_eq_dec : EqDecision StatusPhase.
Proof. solve_decision. Defined.
#[global] Instance GrafanaStatus_eq_dec : EqDecision GrafanaStatus.
Proof. solve_decision. Defined.

(** [reflect.DeepEqual] on two status values: structural equality, pointers
    followed, maps compared by content; nil and empty maps differ, nil and
    empty slices differ, and a nil pointer differs from any reference. *)
Definition DeepEqual (a b : GrafanaStatus) : bool := bool_decide (a = b).

(** ** Cluster resources read by the endpoint resolver *)

(** [routev1.Route], field [Spec.Host]. *)
Record Route := { Host : string }.

(** [v1.LoadBalancerIngress] *)
Record LoadBalancerIngress := { lbIP : string; lbHostname : string }.

(** [v1beta1.Ingress], field [Status.LoadBalancer.Ingress]. *)
Record IngressResource := { LoadBalancer : list LoadBalancerIngress }.

(** [v1.Service], fields [Name] and [Spec.ClusterIP]. *)
Record Service := { Name : string; ClusterIP : string }.

(** Package [common]: the cluster snapshot read at the start of a cycle and
    the fact sent to the dependent controllers. *)
Module common.

Record ClusterState := {
  GrafanaRoute : option Route;
  GrafanaIngress : option IngressResource;
  GrafanaService : option Service
}.

Record ControllerState := {
  DashboardSelectors : list LabelSelector;
  DashboardNamespaceSelector : option LabelSelector;
  AdminUrl : string;
  GrafanaReady : bool;
  ClientTimeout : Z
}.

(** [common.ControllerState{GrafanaReady: false}]: every other field at its
    zero value. *)
Definition notReady : ControllerState :=
  {| DashboardSelectors := [];
     DashboardNamespaceSelector := None;
     AdminUrl := "";
     GrafanaReady := false;
     ClientTimeout := 0 |}.

(** [fact.ClientTimeout = seconds] *)
Definition setClientTimeout (fact : ControllerState) (seconds : Z) : ControllerState :=
  {| DashboardSelectors := DashboardSelectors fact;
     DashboardNamespaceSelector := DashboardNamespaceSelector fact;
     AdminUrl := AdminUrl fact;
     GrafanaReady := GrafanaReady fact;
     ClientTimeout := seconds |}.

End common.

(** ** Formatting *)

(** Go's [int32(x)] conversion: wrap-around into the signed 32-bit range. *)
Definition int32 (x : Z) : Z := (x + 2 ^ 31) mod 2 ^ 32 - 2 ^ 31.

(** [%d] *)
Definition fmt_d (x : Z) : string := NilZero.string_of_int (Z.to_int x).

(** [fmt.Sprintf("https://%v", v)] *)
Definition Sprintf_https (v : string) : string := "https://" +:+ v.

(** [fmt.Sprintf("http://%v:%d", v, d)] *)
Definition Sprintf_http (v : string) (d : Z) : string :=
  "http://" +:+ v +:+ ":" +:+ fmt_d d.

(** A [for _, x := range l { ... }] loop whose body may [return]: the body
    yields [Some r] to return [r] from the enclosing function and [None] to
    go on with the next element. *)
Fixpoint forRange {A R : Type} (body : A -> option R) (l : list A) : option R :=
  match l with
  | [] => None
  | x :: rest =>
      match body x with
      | Some r => Some r
      | None => forRange body rest
      end
  end.

(** ** Endpoint resolution *)

Section Resolver.

(** [model.GetGrafanaPort]: a pure lookup in the object's spec, defined in
    another package and taken here as a parameter. *)
Variable GetGrafanaPort : Grafana -> Z.

Definition getGrafanaAdminUrl (cr : Grafana) (state : common.ClusterState)
  : string + error :=
  let preferService :=
    match Client (Spec cr) with
    | Some c => PreferService c
    | None => false
    end in
  match common.GrafanaRoute state, preferService with
  | Some route, false => inl (Sprintf_https (Host route))
  | _, _ =>
      let fromIngress : option string :=
        match common.GrafanaIngress state, preferService with
        | Some ing, false =>
            let scan :=
              forRange
                (fun ingress =>
                   if bool_decide (lbHostname ingress <> "")
                   then Some (Sprintf_https (lbHostname ingress))
                   else Some (Sprintf_https (lbIP ingress)))
                (LoadBalancer ing) in
            match Ingress (Spec cr) with
            | Some i =>
                if bool_decide (Hostname i <> "")
                then Some (Sprintf_https (Hostname i))
                else scan
            | None => scan
            end
        | _, _ => None
        end in
      match fromIngress with
      | Some url => inl url
      | None =>
          let servicePort := int32 (GetGrafanaPort cr) in
          match common.GrafanaService state with
          | Some svc =>
              if bool_decide (ClusterIP svc <> "")
                 && bool_decide (ClusterIP svc <> "None")
              then inl (Sprintf_http (ClusterIP svc) servicePort)
              else inl (Sprintf_http (Name svc) servicePort)
          | None => inr (New "failed to find admin url")
          end
      end
  end.

End Resolver.

(** ** Process-wide configuration store (package [config]) *)

Module config.

(** Modelled from the spec: [config.RequeueDelay], the fixed delay returned
    with every handled outcome (ten seconds, as a [time.Duration] in
    nanoseconds). *)
Definition RequeueDelay : Z := 10 * 1000000000.

(** Modelled from the spec: the keys of the store the controller uses, the
    label-selector entry and the dashboards-synced flag. *)
Inductive ConfigKey := ConfigDashboardLabelSelector | ConfigGrafanaDashboardsSynced.

#[global] Instance ConfigKey_eq_dec : EqDecision ConfigKey.
Proof. solve_decision. Defined.

#[global] Instance ConfigKey_countable : Countable ConfigKey.
Proof.
  refine (inj_countable'
            (fun k => match k with
                      | ConfigDashboardLabelSelector => 0%nat
                      | ConfigGrafanaDashboardsSynced => 1%nat
                      end)
            (fun n => match n with
                      | 0%nat => ConfigDashboardLabelSelector
                      | _ => ConfigGrafanaDashboardsSynced
                      end) _).
  by intros [].
Defined.

Inductive ConfigValue :=
| BoolValue (b : bool)
| SelectorsValue (l : list LabelSelector)
| StringValue (s : string).

(** Modelled from the spec: the store holds keyed configuration entries and
    the cached dashboard-reference map, which may be nil. *)
Record ControllerConfig := {
  Values : gmap ConfigKey ConfigValue;
  Dashboards : option (gmap string DashboardRefs)
}.

(** Modelled from the spec: [GetConfigBool] reads a flag, with a default when
    the entry is absent or not a boolean. *)
Definition GetConfigBool (c : ControllerConfig) (key : ConfigKey) (default : bool) : bool :=
  match Values c !! key with
  | Some (BoolValue b) => b
  | _ => default
  end.

(** Modelled from the spec: [RemoveConfigItem] removes the entry of a key. *)
Definition RemoveConfigItem (key : ConfigKey) (c : ControllerConfig) : ControllerConfig :=
  {| Values := delete key (Values c); Dashboards := Dashboards c |}.

Definition SetDashboards (d : gmap string DashboardRefs)
           (c : ControllerConfig) : ControllerConfig :=
  {| Values := Values c; Dashboards := Some d |}.

Definition invalidate (d : GrafanaDashboardRef) : GrafanaDashboardRef :=
  {| RefName := RefName d; RefHash := "" |}.

(** Every cached dashboard reference is invalid. *)
Definition allInvalid (c : ControllerConfig) : Prop :=
  forall m, Dashboards c = Some m ->
  forall (k : string) (refs : list (option GrafanaDashboardRef))
         (d : GrafanaDashboardRef),
    m !! k = Some (Some refs) -> Some d ∈ refs -> RefHash d = "".

(** Modelled from the spec: [InvalidateDashboards] invalidates all cached
    dashboard state. *)
Definition InvalidateDashboards (c : ControllerConfig) : ControllerConfig :=
  {| Values := Values c;
     Dashboards :=
       fmap (M := option)
            (fmap (M := gmap string)
                  (fmap (M := option) (fmap (M := list) (fmap (M := option) invalidate))))
            (Dashboards c) |}.

(** Modelled from the spec: [Cleanup] marks all cached dashboards invalid;
    the flag asks for the plugin cache to be dropped as well, which the
    controller never reads. *)
Definition Cleanup (plugins : bool) (c : ControllerConfig) : ControllerConfig :=
  InvalidateDashboards c.

End config.

(** ** Result of a cycle (package [reconcile]) *)

Module reconcile.

Record Result := { Requeue : bool; RequeueAfter : Z }.

(** [reconcile.Result{}] *)
Definition empty : Result := {| Requeue := false; RequeueAfter := 0 |}.

(** [reconcile.Result{RequeueAfter: d}] *)
Definition after (d : Z) : Result := {| Requeue := false; RequeueAfter := d |}.

End reconcile.

Definition DefaultClientTimeoutSeconds : Z := 5.

(** ** The world a cycle runs in *)

(** An event handed to [r.recorder.Event]. *)
Record Event := { EventType : string; Reason : string; Note : string }.

(** The state a cycle reads and changes: the object the cluster API stores
    under the request's name ([None] once deleted), the configuration store
    [r.config], the facts sent on [common.ControllerEvents] (oldest first), the
    recorded events, and a log of the calls to [Status().Update] with the
    status sent and the error returned. *)
Record World := {
  apiObject : option Grafana;
  cfg : config.ControllerConfig;
  ControllerEvents : list common.ControllerState;
  recorder : list Event;
  statusUpdates : list (GrafanaStatus * option error)
}.

(** What the external collaborators answer at each call site of a cycle.  A
    client call with no injected error acts on [apiObject]; [Some e] makes that
    call return [e] and change nothing. *)
Record Outcomes := {
  onFetch : option error;                    (* [r.client.Get] in [Reconcile] *)
  onRead : common.ClusterState + error;      (* [currentState.Read] *)
  onRunAll : option error;                   (* [actionRunner.RunAll] *)
  onConfigMaps : option error;               (* [reconcileConfigMaps] *)
  onSuccessGet : option error;               (* [r.client.Get] in [manageSuccess] *)
  onSuccessUpdate : option error;            (* [Status().Update] in [manageSuccess] *)
  onErrorGet : option error;                 (* [r.client.Get] in [manageError] *)
  onErrorUpdate : option error               (* [Status().Update] in [manageError] *)
}.

(** State monad over [World]. *)
Definition M (A : Type) : Type := World -> A * World.

Definition ret {A : Type} (a : A) : M A := fun w => (a, w).

Definition bind {A B : Type} (m : M A) (k : A -> M B) : M B :=
  fun w => let (a, w') := m w in k a w'.

Notation "'let*' x ':=' c 'in' k" := (bind c (fun x => k))
  (at level 10, x name, c at level 100, k at level 200).
Notation "c ';;' k" := (bind c (fun _ => k))
  (at level 100, k at level 200, right associativity).

Definition getConfig : M config.ControllerConfig := fun w => (cfg w, w).

Definition modifyConfig (f : config.ControllerConfig -> config.ControllerConfig) : M unit :=
  fun w => (tt, {| apiObject := apiObject w; cfg := f (cfg w);
                   ControllerEvents := ControllerEvents w;
                   recorder := recorder w; statusUpdates := statusUpdates w |}).

(** [common.ControllerEvents <- fact] *)
Definition send (fact : common.ControllerState) : M unit :=
  fun w => (tt, {| apiObject := apiObject w; cfg := cfg w;
                   ControllerEvents := ControllerEvents w ++ [fact];
                   recorder := recorder w; statusUpdates := statusUpdates w |}).

(** [r.recorder.Event(cr, eventtype, reason, message)] *)
Definition recordEvent (eventtype reason message : string) : M unit :=
  fun w => (tt, {| apiObject := apiObject w; cfg := cfg w;
                   ControllerEvents := ControllerEvents w;
                   recorder := recorder w ++ [{| EventType := eventtype; Reason := reason;
                                                 Note := message |}];
                   statusUpdates := statusUpdates w |}).

(** The error the cluster API answers for an object it does not hold. *)
Definition notFound : error := mkError ReasonNotFound "not found".

(** [r.client.Get(ctx, request.NamespacedName, instance)] *)
Definition Get (injected : option error) : M (Grafana + error) :=
  fun w =>
    match injected with
    | Some e => (inr e, w)
    | None =>
        match apiObject w with
        | Some instance => (inl instance, w)
        | None => (inr notFound, w)
        end
    end.

(** [r.client.Status().Update(ctx, cr)]: on success the stored object takes
    the status of [cr] and keeps its spec. *)
Definition StatusUpdate (injected : option error) (cr : Grafana) : M (option error) :=
  fun w =>
    let logged (res : option error) (obj : option Grafana) :=
      {| apiObject := obj; cfg := cfg w; ControllerEvents := ControllerEvents w;
         recorder := recorder w;
         statusUpdates := statusUpdates w ++ [(Status cr, res)] |} in
    match injected with
    | Some e => (Some e, logged (Some e) (apiObject w))
    | None =>
        match apiObject w with
        | Some stored =>
            (None, logged None (Some {| Spec := Spec stored; Status := Status cr |}))
        | None => (Some notFound, logged (Some notFound) None)
        end
    end.

(** ** The controller *)

Definition withStatus (cr : Grafana) (st : GrafanaStatus) : Grafana :=
  {| Spec := Spec cr; Status := st |}.

Section Controller.

Variable GetGrafanaPort : Grafana -> Z.

(** The tail of [manageError] once the status is settled. *)
Definition manageErrorDone : M (reconcile.Result * option error) :=
  modifyConfig config.InvalidateDashboards ;;
  send {| common.DashboardSelectors := [];
          common.DashboardNamespaceSelector := None;
          common.AdminUrl := "";
          common.GrafanaReady := false;
          common.ClientTimeout := 0 |} ;;
  ret (reconcile.after config.RequeueDelay, None).

Definition manageError (o : Outcomes) (cr : Grafana) (issue : error)
  : M (reconcile.Result * option error) :=
  recordEvent "Warning" "ProcessingError" (Error issue) ;;
  let cr := withStatus cr {| Phase := PhaseFailing;
                             Message := Error issue;
                             InstalledDashboards := InstalledDashboards (Status cr) |} in
  let* fetched := Get (onErrorGet o) in
  match fetched with
  | inr err => ret (reconcile.empty, Some err)
  | inl instance =>
      if negb (DeepEqual (Status cr) (Status instance)) then
        let* err := StatusUpdate (onErrorUpdate o) cr in
        match err with
        | Some err =>
            (* Ignore conflicts, resource might just be outdated. *)
            let err := if IsConflict err then None else Some err in
            ret (reconcile.empty, err)
        | None => manageErrorDone
        end
      else manageErrorDone
  end.

Definition manageSuccess (o : Outcomes) (cr : Grafana) (state : common.ClusterState)
  : M (reconcile.Result * option error) :=
  let cr := withStatus cr {| Phase := PhaseReconciling;
                             Message := "success";
                             InstalledDashboards := InstalledDashboards (Status cr) |} in
  (* Only update the status if the dashboard controller had a chance to sync
     the cluster dashboards first. *)
  let* c := getConfig in
  let* cr :=
    if config.GetConfigBool c config.ConfigGrafanaDashboardsSynced false then
      ret (withStatus cr {| Phase := Phase (Status cr);
                            Message := Message (Status cr);
                            InstalledDashboards := config.Dashboards c |})
    else
      match config.Dashboards c with
      | None => modifyConfig (config.SetDashboards ∅) ;; ret cr
      | Some _ => ret cr
      end in
  let* fetched := Get (onSuccessGet o) in
  match fetched with
  | inr err => manageError o cr err
  | inl instance =>
      let* err :=
        if negb (DeepEqual (Status cr) (Status instance))
        then StatusUpdate (onSuccessUpdate o) cr
        else ret None in
      match err with
      | Some err => manageError o cr err
      | None =>
          (* Make the Grafana API URL available to the dashboard controller *)
          match getGrafanaAdminUrl GetGrafanaPort cr state with
          | inr err => manageError o cr err
          | inl url =>
              (* Publish controller state *)
              let controllerState :=
                {| common.DashboardSelectors := DashboardLabelSelector (Spec cr);
                   common.DashboardNamespaceSelector :=
                     DashboardNamespaceSelector (Spec cr);
                   common.AdminUrl := url;
                   common.GrafanaReady := true;
                   common.ClientTimeout := DefaultClientTimeoutSeconds |} in
              let controllerState :=
                match Client (Spec cr) with
                | Some client =>
                    match TimeoutSeconds client with
                    | Some seconds =>
                        let seconds :=
                          if (seconds <? 0)%Z then DefaultClientTimeoutSeconds
                          else seconds in
                        common.setClientTimeout controllerState seconds
                    | None => controllerState
                    end
                | None => controllerState
                end in
              send controllerState ;;
              ret (reconcile.after config.RequeueDelay, None)
          end
      end
  end.

Definition Reconcile (o : Outcomes) : M (reconcile.Result * option error) :=
  let* fetched := Get (onFetch o) in
  match fetched with
  | inr err =>
      if IsNotFound err then
        (* Stop the dashboard controller from reconciling when grafana is
           not installed *)
        modifyConfig (config.RemoveConfigItem config.ConfigDashboardLabelSelector) ;;
        modifyConfig (config.Cleanup true) ;;
        send {| common.DashboardSelectors := [];
                common.DashboardNamespaceSelector := None;
                common.AdminUrl := "";
                common.GrafanaReady := false;
                common.ClientTimeout := 0 |} ;;
        ret (reconcile.empty, None)
      else ret (reconcile.empty, Some err)
  | inl instance =>
      let cr := instance in
      (* Read current state *)
      match onRead o with
      | inr err => manageError o cr err
      | inl currentState =>
          (* Run the actions to reach the desired state *)
          match onRunAll o with
          | Some err => manageError o cr err
          | None =>
              (* Run the config map reconciler to discover jsonnet libraries *)
              match onConfigMaps o with
              | Some err => manageError o cr err
              | None => manageSuccess o cr currentState
              end
          end
      end
  end.

End Controller.

(** ** Vocabulary of the properties *)

(** The [preferService] flag as [getGrafanaAdminUrl] reads it. *)
Definition prefersService (cr : Grafana) : bool :=
  match Client (Spec cr) with
  | Some c => PreferService c
  | None => false
  end.

(** The spec of the object names an ingress hostname. *)
Definition hostnameOverride (cr : Grafana) : bool :=
  match Ingress (Spec cr) with
  | Some i => bool_decide (Hostname i <> "")
  | None => false
  end.

(** The URL derived from a service: its cluster IP unless that is empty or
    the sentinel, else its name; the port is printed in decimal. *)
Definition serviceUrl (port : Z) (svc : Service) : string :=
  if bool_decide (ClusterIP svc = "" \/ ClusterIP svc = "None")
  then "http://" +:+ Name svc +:+ ":" +:+ fmt_d (int32 port)
  else "http://" +:+ ClusterIP svc +:+ ":" +:+ fmt_d (int32 port).

(** The URL derived from one load-balancer entry of an ingress. *)
Definition entryUrl (entry : LoadBalancerIngress) : string :=
  if bool_decide (lbHostname entry = "")
  then "https://" +:+ lbIP entry
  else "https://" +:+ lbHostname entry.

(** The status [manageError] intends to persist. *)
Definition errorStatus (cr : Grafana) (issue : error) : GrafanaStatus :=
  {| Phase := PhaseFailing;
     Message := Error issue;
     InstalledDashboards := InstalledDashboards (Status cr) |}.

(** The status [manageSuccess] intends to persist, given the store it reads. *)
Definition successStatus (c : config.ControllerConfig) (cr : Grafana) : GrafanaStatus :=
  {| Phase := PhaseReconciling;
     Message := "success";
     InstalledDashboards :=
       if config.GetConfigBool c config.ConfigGrafanaDashboardsSynced false
       then config.Dashboards c
       else InstalledDashboards (Status cr) |}.

(** The persisted status of the object, if the object exists. *)
Definition persisted (w : World) : option GrafanaStatus := Status <$> apiObject w.

(** The calls to [Status().Update] made between two worlds. *)
Definition issued (w w' : World) : list (GrafanaStatus * option error) :=
  drop (length (statusUpdates w)) (statusUpdates w').

(** The outcome the error path is meant to produce for a failure [issue]:
    phase [Failing] persisted with the error text, every cached dashboard
    invalid, one not-ready fact sent, the fixed delay and no error returned. *)
Definition handledAsFailure (issue : error) (w : World)
           (out : reconcile.Result * option error * World) : Prop :=
  out.1 = (reconcile.after config.RequeueDelay, None)
  /\ (exists st, persisted out.2 = Some st
                /\ Phase st = PhaseFailing /\ Message st = Error issue)
  /\ config.allInvalid (cfg out.2)
  /\ ControllerEvents out.2 = ControllerEvents w ++ [common.notReady].

(** The four failures of a cycle that lead to the error path, for an object
    [obj] fetched at the start of the cycle. *)
Inductive ReconcileFailure (port : Grafana -> Z) (o : Outcomes) (obj : Grafana)
  : error -> Prop :=
| StateReadFailure e :
    onRead o = inr e -> ReconcileFailure port o obj e
| ActionFailure st e :
    onRead o = inl st -> onRunAll o = Some e -> ReconcileFailure port o obj e
| DiscoveryFailure st e :
    onRead o = inl st -> onRunAll o = None -> onConfigMaps o = Some e ->
    ReconcileFailure port o obj e
| ResolutionFailure st e :
    onRead o = inl st -> onRunAll o = None -> onConfigMaps o = None ->
    onSuccessGet o = None -> onSuccessUpdate o = None ->
    getGrafanaAdminUrl port obj st = inr e ->
    ReconcileFailure port o obj e.

(** The errors that send a cycle into the error path, for an object [obj]
    fetched at the start of the cycle while the store is [c]: the four
    reconciliation failures, a failing re-fetch in [manageSuccess], and a
    status write of [manageSuccess] that was needed and is refused for a
    reason other than a conflict. *)
Inductive CycleError (port : Grafana -> Z) (o : Outcomes)
          (c : config.ControllerConfig) (obj : Grafana) : error -> Prop :=
| ReconcileError e :
    ReconcileFailure port o obj e -> CycleError port o c obj e
| RefetchError st e :
    onRead o = inl st -> onRunAll o = None -> onConfigMaps o = None ->
    onSuccessGet o = Some e ->
    CycleError port o c obj e
| WriteError st e :
    onRead o = inl st -> onRunAll o = None -> onConfigMaps o = None ->
    onSuccessGet o = None ->
    Status obj <> successStatus c obj ->
    onSuccessUpdate o = Some e -> IsConflict e = false ->
    CycleError port o c obj e.

(** The initial fetch of a cycle reports not-found. *)
Definition fetchNotFound (o : Outcomes) (w : World) : Prop :=
  (exists e, onFetch o = Some e /\ IsNotFound e = true)
  \/ (onFetch o = None /\ apiObject w = None).

(** The client timeout in effect for an object: the default when none is
    given or a negative one is given. *)
Definition effectiveTimeout (cr : Grafana) : Z :=
  match Client (Spec cr) with
  | Some client =>
      match TimeoutSeconds client with
      | Some seconds => if decide (seconds < 0)%Z then 5 else seconds
      | None => 5
      end
  | None => 5
  end.

(** The fact a successful cycle sends for an object resolved to [url]. *)
Definition readyFact (cr : Grafana) (url : string) : common.ControllerState :=
  {| common.DashboardSelectors := DashboardLabelSelector (Spec cr);
     common.DashboardNamespaceSelector := DashboardNamespaceSelector (Spec cr);
     common.AdminUrl := url;
     common.GrafanaReady := true;
     common.ClientTimeout := effectiveTimeout cr |}.

(** The phases of a list of logged status writes. *)
Definition phases (l : list (GrafanaStatus * option error)) : list StatusPhase :=
  (fun entry => Phase entry.1) <$> l.

(** The order in which one cycle may write phases: at most one write of
    [Reconciling], then at most one write of [Failing]. *)
Definition successThenFailure (l : list StatusPhase) : Prop :=
  l = [] \/ l = [PhaseReconciling] \/ l = [PhaseFailing]
  \/ l = [PhaseReconciling; PhaseFailing].

(** The client timeout the spec of the object supplies, if any. *)
Definition suppliedTimeout (cr : Grafana) : option Z :=
  match Client (Spec cr) with
  | Some client => TimeoutSeconds client
  | None => None
  end.

(** ** Concrete objects used in the examples *)

Definition port0 : Grafana -> Z := fun _ => 3000.

Definition spec0 : GrafanaSpec :=
  {| Client := None; Ingress := None;
     DashboardLabelSelector := []; DashboardNamespaceSelector := None |}.

(** A freshly created object: no status written yet. *)
Definition obj0 : Grafana :=
  {| Spec := spec0;
     Status := {| Phase := PhaseUnset; Message := ""; InstalledDashboards := None |} |}.

Definition cfg0 : config.ControllerConfig :=
  {| config.Values := ∅; config.Dashboards := None |}.

Definition world0 : World :=
  {| apiObject := Some obj0; cfg := cfg0; ControllerEvents := [];
     recorder := []; statusUpdates := [] |}.

(** The object has been deleted. *)
Definition worldDeleted : World :=
  {| apiObject := None; cfg := cfg0; ControllerEvents := [];
     recorder := []; statusUpdates := [] |}.

(** A snapshot with no route, no ingress and no service. *)
Definition stateNone : common.ClusterState :=
  {| common.GrafanaRoute := None; common.GrafanaIngress := None;
     common.GrafanaService := None |}.

(** A snapshot with only a route. *)
Definition stateRoute : common.ClusterState :=
  {| common.GrafanaRoute := Some {| Host := "grafana.example.com" |};
     common.GrafanaIngress := None; common.GrafanaService := None |}.

(** The statuses the example cycles write. *)
Definition reconciling0 : GrafanaStatus :=
  {| Phase := PhaseReconciling; Message := "success"; InstalledDashboards := None |}.

Definition failing0 (text : string) : GrafanaStatus :=
  {| Phase := PhaseFailing; Message := text; InstalledDashboards := None |}.

Definition route0 : Route := {| Host := "grafana.example.com" |}.

Definition service0 : Service := {| Name := "grafana-service"; ClusterIP := "10.0.0.7" |}.

(** An ingress whose first load-balancer entry has only an IP and whose
    second entry has a hostname. *)
Definition ingress0 : IngressResource :=
  {| LoadBalancer := [ {| lbIP := "10.0.0.5"; lbHostname := "" |};
                       {| lbIP := ""; lbHostname := "lb.example.com" |} ] |}.

(** An ingress without load-balancer entries. *)
Definition ingressEmpty : IngressResource := {| LoadBalancer := [] |}.

(** A snapshot with a route, an ingress and a service. *)
Definition stateAll : common.ClusterState :=
  {| common.GrafanaRoute := Some route0; common.GrafanaIngress := Some ingress0;
     common.GrafanaService := Some service0 |}.

(** A snapshot with only an ingress. *)
Definition stateIngress : common.ClusterState :=
  {| common.GrafanaRoute := None; common.GrafanaIngress := Some ingress0;
     common.GrafanaService := None |}.

(** A snapshot with an ingress without entries, and a service. *)
Definition stateEmptyIngress : common.ClusterState :=
  {| common.GrafanaRoute := None; common.GrafanaIngress := Some ingressEmpty;
     common.GrafanaService := Some service0 |}.

(** An object whose spec asks for the service and a timeout of [-5]. *)
Definition objClient : Grafana :=
  {| Spec := {| Client := Some {| TimeoutSeconds := Some (-5); PreferService := true |};
                Ingress := None;
                DashboardLabelSelector := []; DashboardNamespaceSelector := None |};
     Status := {| Phase := PhaseUnset; Message := ""; InstalledDashboards := None |} |}.

(** An object whose spec names an ingress hostname. *)
Definition objHostname : Grafana :=
  {| Spec := {| Client := None;
                Ingress := Some {| Hostname := "grafana.internal" |};
                DashboardLabelSelector := []; DashboardNamespaceSelector := None |};
     Status := {| Phase := PhaseUnset; Message := ""; InstalledDashboards := None |} |}.

Definition worldClient : World :=
  {| apiObject := Some objClient; cfg := cfg0; ControllerEvents := [];
     recorder := []; statusUpdates := [] |}.

(** Every collaborator answers without error; the snapshot read is [st]. *)
Definition allGood (st : common.ClusterState) : Outcomes :=
  {| onFetch := None; onRead := inl st; onRunAll := None; onConfigMaps := None;
     onSuccessGet := None; onSuccessUpdate := None;
     onErrorGet := None; onErrorUpdate := None |}.

Definition readFailure : error := New "error reading state".
Definition unavailable : error := mkError ReasonUnknown "service unavailable".
Definition conflict : error :=
  mkError ReasonConflict "the object has been modified".

(** Every collaborator succeeds, but the status write of [manageSuccess] is
    rejected with [e1] and that of [manageError] answers [e2]. *)
Definition writeRejected (st : common.ClusterState) (e1 : error) (e2 : option error)
  : Outcomes :=
  {| onFetch := None; onRead := inl st; onRunAll := None; onConfigMaps := None;
     onSuccessGet := None; onSuccessUpdate := Some e1;
     onErrorGet := None; onErrorUpdate := e2 |}.

(** The initial fetch fails with [e]. *)
Definition fetchFails (e : error) : Outcomes :=
  {| onFetch := Some e; onRead := inl stateRoute; onRunAll := None;
     onConfigMaps := None; onSuccessGet := None; onSuccessUpdate := None;
     onErrorGet := None; onErrorUpdate := None |}.

(** Every collaborator succeeds except the re-fetch of [manageSuccess], which
    fails with [e]. *)
Definition refetchFails (st : common.ClusterState) (e : error) : Outcomes :=
  {| onFetch := None; onRead := inl st; onRunAll := None; onConfigMaps := None;
     onSuccessGet := Some e; onSuccessUpdate := None;
     onErrorGet := None; onErrorUpdate := None |}.

(** Reading the cluster state fails; [getErr] and [updErr] are what the client
    calls of the error path answer. *)
Definition readFails (getErr updErr : option error) : Outcomes :=
  {| onFetch := None; onRead := inr readFailure; onRunAll := None;
     onConfigMaps := None; onSuccessGet := None; onSuccessUpdate := None;
     onErrorGet := getErr; onErrorUpdate := updErr |}.

(** ** Outcomes of a cycle *)

(** The event [manageError] records for a failure. *)
Definition warning (issue : error) : Event :=
  {| EventType := "Warning"; Reason := "ProcessingError"; Note := Error issue |}.

(** How a run that reached [manageError] ends, seen from the world [w] it
    started in: either the failure is handled (delay returned, one not-ready
    fact sent, [Failing] persisted with the text of [issue]), or the run stops
    early with an empty result and nothing sent.  Either way one warning is
    recorded. *)
Inductive ErrorOutcome (w : World) (out : reconcile.Result * option error * World)
  : Prop :=
| Handled (issue : error) (status : GrafanaStatus) :
    out.1 = (reconcile.after config.RequeueDelay, None) ->
    ControllerEvents out.2 = ControllerEvents w ++ [common.notReady] ->
    persisted out.2 = Some status ->
    Phase status = PhaseFailing -> Message status = Error issue ->
    recorder out.2 = recorder w ++ [warning issue] ->
    config.allInvalid (cfg out.2) ->
    ErrorOutcome w out
| Stopped (issue : error) (err : option error) :
    out.1 = (reconcile.empty, err) ->
    ControllerEvents out.2 = ControllerEvents w ->
    recorder out.2 = recorder w ++ [warning issue] ->
    ErrorOutcome w out.

(** A run of [manageSuccess] for [cr] that stays on the success path. *)
Definition SuccessOutcome (port : Grafana -> Z) (cr : Grafana)
           (st : common.ClusterState) (w : World)
           (out : reconcile.Result * option error * World) : Prop :=
  exists url,
    getGrafanaAdminUrl port (withStatus cr (successStatus (cfg w) cr)) st = inl url
    /\ out.1 = (reconcile.after config.RequeueDelay, None)
    /\ ControllerEvents out.2 = ControllerEvents w ++ [readyFact cr url]
    /\ persisted out.2 = Some (successStatus (cfg w) cr)
    /\ recorder out.2 = recorder w.

(** The ways a cycle can end. *)
Inductive CycleOutcome (port : Grafana -> Z) (o : Outcomes) (w : World)
          (out : reconcile.Result * option error * World) : Prop :=
| TornDown :
    out.1 = (reconcile.empty, None) ->
    ControllerEvents out.2 = ControllerEvents w ++ [common.notReady] ->
    recorder out.2 = recorder w ->
    statusUpdates out.2 = statusUpdates w ->
    CycleOutcome port o w out
| FetchFailed (e : error) :
    IsNotFound e = false ->
    out = (reconcile.empty, Some e, w) ->
    CycleOutcome port o w out
| Succeeded (obj : Grafana) (st : common.ClusterState) :
    apiObject w = Some obj -> onRead o = inl st ->
    SuccessOutcome port obj st w out ->
    CycleOutcome port o w out
| Failed :
    ErrorOutcome w out ->
    CycleOutcome port o w out.

(** Every step of a cycle up to the status write succeeds for [obj]: the
    fetch, the state read (giving [st]), the actions, the config-map
    discovery and the re-fetch of [manageSuccess]; and the endpoint of [obj]
    resolves in [st]. *)
Definition Converges (port : Grafana -> Z) (o : Outcomes) (obj : Grafana)
           (st : common.ClusterState) : Prop :=
  onFetch o = None /\ onRead o = inl st /\ onRunAll o = None
  /\ onConfigMaps o = None /\ onSuccessGet o = None
  /\ exists url, getGrafanaAdminUrl port obj st = inl url.

(** A cycle fails with [e] before it reaches [manageSuccess]: in the state
    read, in the actions or in the config-map discovery. *)
Definition EarlyFailure (o : Outcomes) (e : error) : Prop :=
  onFetch o = None
  /\ (onRead o = inr e
      \/ (exists st, onRead o = inl st /\ onRunAll o = Some e)
      \/ (exists st, onRead o = inl st /\ onRunAll o = None /\ onConfigMaps o = Some e)).

(** Unfold the monadic plumbing of a run. *)
Ltac run :=
  unfold manageErrorDone, bind, ret, Get, StatusUpdate, send, recordEvent,
    modifyConfig, getConfig in *;
  simpl in *.


(** ** Endpoint resolution *)

Section ResolverProperties.

Variable GetGrafanaPort : Grafana -> Z.

Lemma forRange_first {A R : Type} (body : A -> option R) (x : A) (rest : list A) (r : R) :
  body x = Some r -> forRange body (x :: rest) = Some r.
Proof. intros Hx. simpl. by rewrite Hx. Qed.

Lemma service_tier (cr : Grafana) (state : common.ClusterState) :
  (prefersService cr = true \/
   (common.GrafanaRoute state = None /\
    (common.GrafanaIngress state = None \/
     exists ing, common.GrafanaIngress state = Some ing /\
                 hostnameOverride cr = false /\ LoadBalancer ing = []))) ->
  getGrafanaAdminUrl GetGrafanaPort cr state =
    match common.GrafanaService state with
    | Some svc => inl (serviceUrl (GetGrafanaPort cr) svc)
    | None => inr (New "failed to find admin url")
    end.
Proof.
  unfold getGrafanaAdminUrl, prefersService, hostnameOverride, serviceUrl, Sprintf_http.
  intros H.
  assert (Hsvc : forall svc : Service,
             (if bool_decide (ClusterIP svc <> "") && bool_decide (ClusterIP svc <> "None")
              then inl ("http://" +:+ ClusterIP svc +:+ ":" +:+ fmt_d (int32 (GetGrafanaPort cr)))
              else inl ("http://" +:+ Name svc +:+ ":" +:+ fmt_d (int32 (GetGrafanaPort cr))))
             = (inl (if bool_decide (ClusterIP svc = "" \/ ClusterIP svc = "None")
                     then "http://" +:+ Name svc +:+ ":" +:+ fmt_d (int32 (GetGrafanaPort cr))
                     else "http://" +:+ ClusterIP svc +:+ ":" +:+ fmt_d (int32 (GetGrafanaPort cr)))
                : string + error)).
  { intros svc. repeat case_bool_decide; simpl; try done; tauto. }
  destruct H as [Hp | [Hr Hi]].
  - rewrite Hp.
    destruct (common.GrafanaRoute state), (common.GrafanaIngress state),
      (common.GrafanaService state); simpl; by rewrite ?Hsvc.
  - rewrite Hr. destruct Hi as [Hi | (ing & Hi & Ho & Hl)]; rewrite Hi.
    + destruct (match Client (Spec cr) with Some c => PreferService c | None => false end),
        (common.GrafanaService state); simpl; by rewrite ?Hsvc.
    + rewrite Hl. simpl.
      destruct (match Client (Spec cr) with Some c => PreferService c | None => false end).
      * destruct (common.GrafanaService state); simpl; by rewrite ?Hsvc.
      * destruct (Ingress (Spec cr)) as [i|]; [rewrite Ho|];
          destruct (common.GrafanaService state); simpl; by rewrite ?Hsvc.
Qed.

(** C4. Endpoint priority: with a route present and [preferService] false the
    result is the route-derived URL [https://<route.host>], whatever ingress
    and service are present; with [preferService] true the route and the
    ingress are skipped and the service-derived URL is returned. *)
Theorem endpoint_priority (cr : Grafana) (state : common.ClusterState) :
  (forall route, common.GrafanaRoute state = Some route ->
                 prefersService cr = false ->
                 getGrafanaAdminUrl GetGrafanaPort cr state = inl ("https://" +:+ Host route))
  /\ (forall svc, prefersService cr = true ->
                  common.GrafanaService state = Some svc ->
                  getGrafanaAdminUrl GetGrafanaPort cr state
                  = inl (serviceUrl (GetGrafanaPort cr) svc)).
Proof.
  split.
  - intros route Hr Hp. unfold getGrafanaAdminUrl.
    fold (prefersService cr). by rewrite Hr, Hp.
  - intros svc Hp Hs. rewrite service_tier by (by left). by rewrite Hs.
Qed.

(** C6. Ingress fallback: with [preferService] false, no route, an ingress
    present and no hostname override, the result is taken from the first
    load-balancer entry alone: its hostname if non-empty, else its IP; the
    later entries are never consulted. *)
Theorem ingress_first_entry (cr : Grafana) (state : common.ClusterState)
        (ing : IngressResource) (first : LoadBalancerIngress)
        (rest : list LoadBalancerIngress) :
  prefersService cr = false ->
  common.GrafanaRoute state = None ->
  common.GrafanaIngress state = Some ing ->
  hostnameOverride cr = false ->
  LoadBalancer ing = first :: rest ->
  getGrafanaAdminUrl GetGrafanaPort cr state = inl (entryUrl first)
  /\ (lbHostname first <> "" ->
      getGrafanaAdminUrl GetGrafanaPort cr state = inl ("https://" +:+ lbHostname first))
  /\ (lbHostname first = "" ->
      getGrafanaAdminUrl GetGrafanaPort cr state = inl ("https://" +:+ lbIP first)).
Proof.
  intros Hp Hr Hi Ho Hl.
  assert (E : getGrafanaAdminUrl GetGrafanaPort cr state = inl (entryUrl first)).
  { unfold getGrafanaAdminUrl. fold (prefersService cr). rewrite Hp, Hr, Hi, Hl.
    unfold hostnameOverride in Ho.
    assert (Hscan : forRange
              (fun ingress : LoadBalancerIngress =>
                 if bool_decide (lbHostname ingress <> "")
                 then Some (Sprintf_https (lbHostname ingress))
                 else Some (Sprintf_https (lbIP ingress))) (first :: rest)
            = Some (entryUrl first)).
    { apply forRange_first. unfold entryUrl, Sprintf_https.
      repeat case_bool_decide; done. }
    rewrite Hscan.
    destruct (Ingress (Spec cr)) as [i|]; [by rewrite Ho | done]. }
  split; [exact E|]. rewrite E. unfold entryUrl.
  split; intros H; case_bool_decide; done.
Qed.

Lemma scan_nonempty (l : list LoadBalancerIngress) :
  forRange
    (fun ingress : LoadBalancerIngress =>
       if bool_decide (lbHostname ingress <> "")
       then Some (Sprintf_https (lbHostname ingress))
       else Some (Sprintf_https (lbIP ingress))) l <> Some "".
Proof.
  destruct l as [|x rest]; simpl; [done|]. by case_bool_decide.
Qed.

Lemma admin_url_nonempty (cr : Grafana) (state : common.ClusterState) :
  getGrafanaAdminUrl GetGrafanaPort cr state <> inl "".
Proof.
  unfold getGrafanaAdminUrl. intros H.
  repeat case_match; simplify_eq; try discriminate;
    by match goal with
       | H : forRange _ ?l = Some _ |- _ => apply scan_nonempty in H
       end.
Qed.

(** C7. No endpoint: when no tier matches (the route and the ingress are
    skipped by [preferService], or there is no route and no usable ingress:
    none, or one with neither a hostname override nor a load-balancer entry)
    and there is no service, resolution fails with an error; and no
    resolution ever succeeds with the empty string. *)
Theorem no_endpoint_is_error (cr : Grafana) (state : common.ClusterState) :
  ((prefersService cr = true \/
    (common.GrafanaRoute state = None /\
     (common.GrafanaIngress state = None \/
      exists ing, common.GrafanaIngress state = Some ing /\
                  hostnameOverride cr = false /\ LoadBalancer ing = []))) ->
   common.GrafanaService state = None ->
   getGrafanaAdminUrl GetGrafanaPort cr state = inr (New "failed to find admin url"))
  /\ getGrafanaAdminUrl GetGrafanaPort cr state <> inl "".
Proof.
  split; [|apply admin_url_nonempty].
  intros Hnone Hs. rewrite service_tier by done. by rewrite Hs.
Qed.

(** C10. An ingress that is present but unusable (no hostname override, no
    load-balancer entry) does not end resolution: with [preferService] false
    and no route, the result is the service-derived URL when a service is
    present and the error only when it is absent too. *)
Theorem unusable_ingress_falls_through (cr : Grafana) (state : common.ClusterState)
        (ing : IngressResource) :
  prefersService cr = false ->
  common.GrafanaRoute state = None ->
  common.GrafanaIngress state = Some ing ->
  hostnameOverride cr = false ->
  LoadBalancer ing = [] ->
  (forall svc, common.GrafanaService state = Some svc ->
               getGrafanaAdminUrl GetGrafanaPort cr state
               = inl (serviceUrl (GetGrafanaPort cr) svc))
  /\ (common.GrafanaService state = None ->
      getGrafanaAdminUrl GetGrafanaPort cr state = inr (New "failed to find admin url")).
Proof.
  intros _ Hr Hi Ho Hl.
  assert (E := service_tier cr state).
  rewrite E by (right; split; [done|]; right; by exists ing).
  split; [intros svc Hs|intros Hs]; by rewrite Hs.
Qed.

End ResolverProperties.

(** ** The error path *)

Lemma InvalidateDashboards_allInvalid (c : config.ControllerConfig) :
  config.allInvalid (config.InvalidateDashboards c).
Proof.
  intros m Hm k refs d Hk Hd. simpl in Hm.
  destruct (config.Dashboards c) as [m0|]; simplify_eq/=.
  rewrite lookup_fmap in Hk.
  destruct (m0 !! k) as [[refs0|]|]; simplify_eq/=.
  apply list_elem_of_fmap in Hd as ([d0|] & Hd0 & _); by simplify_eq/=.
Qed.

Section ErrorPath.

Variable GetGrafanaPort : Grafana -> Z.

Lemma manageError_handles (o : Outcomes) (cr : Grafana) (issue : error)
      (w : World) (inst : Grafana) :
  apiObject w = Some inst ->
  onErrorGet o = None ->
  onErrorUpdate o = None ->
  handledAsFailure issue w (manageError o cr issue w).
Proof.
  intros Hobj Hget Hupd. unfold handledAsFailure, manageError, persisted.
  run. rewrite Hget, Hobj, Hupd. unfold DeepEqual.
  case_bool_decide as Heq; simpl; rewrite ?Hobj; simpl; rewrite <- ?Heq; simpl;
    (split; [done|]); (split; [by eexists|]);
    (split; [apply InvalidateDashboards_allInvalid|done]).
Qed.

Lemma manageError_refetch_error (o : Outcomes) (cr : Grafana) (issue e : error)
      (w : World) :
  onErrorGet o = Some e ->
  (manageError o cr issue w).1 = (reconcile.empty, Some e).
Proof. intros Hget. unfold manageError. run. by rewrite Hget. Qed.

(** X12. A rejected status write ends [manageError] at once, with an empty
    result: a conflict is dropped, any other error is returned; nothing is
    sent and the configuration store is left as it was. *)
Lemma manageError_write_rejected (o : Outcomes) (cr : Grafana) (issue e : error)
      (w : World) (inst : Grafana) :
  apiObject w = Some inst ->
  onErrorGet o = None ->
  Status inst <> errorStatus cr issue ->
  onErrorUpdate o = Some e ->
  let out := manageError o cr issue w in
  out.1 = (reconcile.empty, if IsConflict e then None else Some e)
  /\ ControllerEvents out.2 = ControllerEvents w
  /\ cfg out.2 = cfg w
  /\ apiObject out.2 = Some inst.
Proof.
  intros Hobj Hget Hne Hupd. unfold manageError. run.
  rewrite Hget, Hobj. fold (errorStatus cr issue). unfold DeepEqual.
  rewrite bool_decide_eq_false_2 by done. simpl. rewrite Hupd. simpl.
  by destruct (IsConflict e).
Qed.

Lemma admin_url_error_spec (cr cr' : Grafana) (st : common.ClusterState) (e : error) :
  Spec cr = Spec cr' ->
  getGrafanaAdminUrl GetGrafanaPort cr st = inr e ->
  getGrafanaAdminUrl GetGrafanaPort cr' st = inr e.
Proof.
  unfold getGrafanaAdminUrl. intros <-.
  intros H. repeat case_match; simplify_eq; done.
Qed.

(** The cycle of an object [obj] hit by one of the four failures enters
    [manageError] with that failure, in a world that still holds the object
    and has published nothing more. *)
Lemma failure_enters_error_path (o : Outcomes) (w : World) (obj : Grafana)
      (issue : error) :
  apiObject w = Some obj ->
  onFetch o = None ->
  ReconcileFailure GetGrafanaPort o obj issue ->
  exists cr w1 inst,
    Reconcile GetGrafanaPort o w = manageError o cr issue w1
    /\ apiObject w1 = Some inst
    /\ ControllerEvents w1 = ControllerEvents w.
Proof.
  intros Hobj Hfetch Hfail. unfold Reconcile.
  destruct Hfail as [e Hr | st e Hr Ha | st e Hr Ha Hc | st e Hr Ha Hc Hg Hu Hurl].
  - exists obj, w, obj. run. by rewrite Hfetch, Hobj, Hr.
  - exists obj, w, obj. run. by rewrite Hfetch, Hobj, Hr, Ha.
  - exists obj, w, obj. run. by rewrite Hfetch, Hobj, Hr, Ha, Hc.
  - unfold manageSuccess. run. rewrite Hfetch, Hobj, Hr, Ha, Hc, Hg, Hu.
    set (synced := config.GetConfigBool (cfg w) config.ConfigGrafanaDashboardsSynced false).
    destruct synced, (config.Dashboards (cfg w)) as [d|] eqn:Hd; simpl;
      rewrite ?Hobj; simpl; unfold DeepEqual; case_bool_decide; simpl;
      rewrite ?Hobj; simpl;
      match goal with
      | |- context [getGrafanaAdminUrl GetGrafanaPort ?c st] =>
          rewrite (admin_url_error_spec obj c st e eq_refl Hurl)
      end;
      by eexists _, _, _.
Qed.

(** C1 (amended). For each of the four reconciliation failures, when the
    re-fetch inside the error path succeeds and the status write there is
    not rejected, the cycle persists phase [Failing] with the error text,
    leaves every cached dashboard invalid, sends one not-ready fact and
    returns the fixed delay with no error; when the re-fetch fails, that
    error is returned to the caller with an empty result. *)
Theorem error_path_handled (o : Outcomes) (w : World) (obj : Grafana)
        (issue : error) :
  apiObject w = Some obj ->
  onFetch o = None ->
  ReconcileFailure GetGrafanaPort o obj issue ->
  (onErrorGet o = None -> onErrorUpdate o = None ->
   handledAsFailure issue w (Reconcile GetGrafanaPort o w))
  /\ (forall e, onErrorGet o = Some e ->
                (Reconcile GetGrafanaPort o w).1 = (reconcile.empty, Some e)).
Proof.
  intros Hobj Hfetch Hfail.
  destruct (failure_enters_error_path o w obj issue Hobj Hfetch Hfail)
    as (cr & w1 & inst & -> & Hobj1 & Hev).
  split.
  - intros Hget Hupd.
    pose proof (manageError_handles o cr issue w1 inst Hobj1 Hget Hupd) as H.
    unfold handledAsFailure in *. by rewrite <- Hev.
  - intros e Hget. by apply manageError_refetch_error.
Qed.

(** C5 (amended). When the initial fetch reports not-found, the cycle removes
    the label-selector entry from the configuration store, leaves every
    cached dashboard invalid, sends one not-ready fact, writes no status, and
    returns no error with an empty result: no requeue delay is scheduled. *)
Theorem teardown_on_not_found (o : Outcomes) (w : World) :
  fetchNotFound o w ->
  let out := Reconcile GetGrafanaPort o w in
  out.1 = (reconcile.empty, None)
  /\ config.Values (cfg out.2) !! config.ConfigDashboardLabelSelector = None
  /\ config.allInvalid (cfg out.2)
  /\ ControllerEvents out.2 = ControllerEvents w ++ [common.notReady]
  /\ apiObject out.2 = apiObject w
  /\ statusUpdates out.2 = statusUpdates w.
Proof.
  intros [(e & He & Hnf) | [He Hobj]]; unfold Reconcile; run;
    rewrite He, ?Hobj, ?Hnf; simpl;
    (split; [done|]); (split; [apply lookup_delete_eq|]);
    (split; [apply InvalidateDashboards_allInvalid|]); done.
Qed.

End ErrorPath.

(** ** Status updates *)

Lemma issued_app (w w' : World) (d : list (GrafanaStatus * option error)) :
  statusUpdates w' = statusUpdates w ++ d -> issued w w' = d.
Proof. intros H. unfold issued. rewrite H. apply drop_app_length. Qed.

Lemma issued_same (w w' : World) :
  statusUpdates w' = statusUpdates w -> issued w w' = [].
Proof. intros H. apply issued_app. by rewrite app_nil_r. Qed.




Lemma GetConfigBool_SetDashboards d c key default :
  config.GetConfigBool (config.SetDashboards d c) key default
  = config.GetConfigBool c key default.
Proof. reflexivity. Qed.

(** [DeepEqual] tells a nil slice from an empty one and a nil pointer from a
    reference, so a status that differs from the persisted one only in that
    way is still written. *)
Lemma DeepEqual_nil_and_empty :
  let status (refs : DashboardRefs) :=
    {| Phase := PhaseFailing; Message := Error readFailure;
       InstalledDashboards := Some {[ "dashboards" := refs ]} |} in
  let stored (refs : DashboardRefs) :=
    {| apiObject := Some {| Spec := spec0; Status := status refs |}; cfg := cfg0;
       ControllerEvents := []; recorder := []; statusUpdates := [] |} in
  DeepEqual (status None) (status (Some [])) = false
  /\ DeepEqual (status (Some [None]))
               (status (Some [Some {| RefName := ""; RefHash := "" |}])) = false
  /\ issued (stored (Some []))
        (manageError (readFails None None)
           {| Spec := spec0; Status := status None |} readFailure (stored (Some []))).2
     = [(status None, None)].
Proof. by vm_compute. Qed.

Section StatusUpdates.

Variable GetGrafanaPort : Grafana -> Z.

Lemma admin_url_resolves_spec (cr cr' : Grafana) (st : common.ClusterState) :
  Spec cr = Spec cr' ->
  (exists url, getGrafanaAdminUrl GetGrafanaPort cr st = inl url) ->
  exists url, getGrafanaAdminUrl GetGrafanaPort cr' st = inl url.
Proof.
  intros Hs [url Hurl].
  destruct (getGrafanaAdminUrl GetGrafanaPort cr' st) as [url'|e] eqn:E; [by eexists|].
  apply (admin_url_error_spec _ cr' cr) in E; [congruence | done].
Qed.

(** What one run of [manageError] does to the stored object and to the log
    of status writes. *)
Lemma manageError_effect (o : Outcomes) (cr : Grafana) (issue : error) (w : World) :
  let w' := (manageError o cr issue w).2 in
  match onErrorGet o, apiObject w with
  | None, Some inst =>
      if DeepEqual (errorStatus cr issue) (Status inst)
      then apiObject w' = Some inst /\ statusUpdates w' = statusUpdates w
      else
        match onErrorUpdate o with
        | Some e =>
            apiObject w' = Some inst
            /\ statusUpdates w' = statusUpdates w ++ [(errorStatus cr issue, Some e)]
        | None =>
            apiObject w' = Some (withStatus inst (errorStatus cr issue))
            /\ statusUpdates w' = statusUpdates w ++ [(errorStatus cr issue, None)]
        end
  | _, _ => apiObject w' = apiObject w /\ statusUpdates w' = statusUpdates w
  end.
Proof.
  unfold manageError. run. fold (errorStatus cr issue).
  destruct (onErrorGet o); [done|].
  destruct (apiObject w) as [inst|] eqn:Hobj; [|done].
  destruct (DeepEqual (errorStatus cr issue) (Status inst)); simpl; [done|].
  destruct (onErrorUpdate o); simpl; [done|].
  rewrite ?Hobj. done.
Qed.

(** A run of [manageError] adds at most one write, of its own status. *)
Lemma manageError_log (o : Outcomes) (cr : Grafana) (issue : error) (w : World) :
  exists d, statusUpdates (manageError o cr issue w).2 = statusUpdates w ++ d
            /\ (d = [] \/ exists r, d = [(errorStatus cr issue, r)]).
Proof.
  pose proof (manageError_effect o cr issue w) as H. simpl in H.
  destruct (onErrorGet o), (apiObject w) as [inst|];
    try (exists []; rewrite app_nil_r; split; [apply H | by left]).
  destruct (DeepEqual _ _).
  - exists []. rewrite app_nil_r. split; [apply H | by left].
  - destruct (onErrorUpdate o); eexists; (split; [apply H | right; by eexists]).
Qed.


(** A run of [manageSuccess] whose re-fetch succeeds, whose write (if one is
    needed) is accepted and whose endpoint resolves: the stored status is
    the intended one, at most one write was issued, and one ready fact was
    sent. *)
Lemma manageSuccess_effect (o : Outcomes) (cr : Grafana) (st : common.ClusterState)
      (w : World) (inst : Grafana) (url : string) :
  apiObject w = Some inst ->
  onSuccessGet o = None ->
  DeepEqual (successStatus (cfg w) cr) (Status inst) = true \/ onSuccessUpdate o = None ->
  getGrafanaAdminUrl GetGrafanaPort (withStatus cr (successStatus (cfg w) cr)) st = inl url ->
  let out := manageSuccess GetGrafanaPort o cr st w in
  out.1 = (reconcile.after config.RequeueDelay, None)
  /\ apiObject out.2 = Some (withStatus inst (successStatus (cfg w) cr))
  /\ statusUpdates out.2 =
       statusUpdates w ++
       (if DeepEqual (successStatus (cfg w) cr) (Status inst) then []
        else [(successStatus (cfg w) cr, None)])
  /\ successStatus (cfg out.2) cr = successStatus (cfg w) cr
  /\ ControllerEvents out.2 = ControllerEvents w ++ [readyFact cr url].
Proof.
  intros Hobj Hget Hupd.
  unfold manageSuccess, successStatus, readyFact, effectiveTimeout, withStatus in *.
  run. rewrite Hget.
  destruct (config.GetConfigBool (cfg w) config.ConfigGrafanaDashboardsSynced false) eqn:Hs,
    (config.Dashboards (cfg w)) eqn:Hd; simpl in *; rewrite Hobj; simpl;
    intros Hurl.
  all: destruct (DeepEqual _ (Status inst)) eqn:Heq; simpl;
    [| destruct Hupd as [? | Hu]; [congruence|]; rewrite Hu; simpl; rewrite ?Hobj; simpl];
    rewrite Hurl; simpl; rewrite ?Hobj, ?Hs, ?Hd; simpl.
  all: repeat match goal with |- _ /\ _ => split end; try done;
    try (by rewrite app_nil_r);
    try (unfold DeepEqual in Heq; apply bool_decide_eq_true_1 in Heq;
         destruct inst; simpl in *; congruence).
  all: do 2 f_equal; destruct (Client (Spec cr)) as [[[seconds|] ?]|]; simpl; try done;
    unfold common.setClientTimeout, DefaultClientTimeoutSeconds; simpl; f_equal;
    try match goal with
    | |- context [(?s <? 0)%Z] => destruct (Z.ltb_spec s 0); case_decide; done || lia
    end.
  all: by rewrite GetConfigBool_SetDashboards, Hs.
Qed.




End StatusUpdates.

(** ** Phases written in one cycle, and the published timeout *)

Section Cycle.

Variable GetGrafanaPort : Grafana -> Z.

Lemma manageError_phases (o : Outcomes) (cr : Grafana) (issue : error) (w : World) :
  exists d, statusUpdates (manageError o cr issue w).2 = statusUpdates w ++ d
            /\ (phases d = [] \/ phases d = [PhaseFailing]).
Proof.
  destruct (manageError_log o cr issue w) as (d & H & [-> | [r ->]]);
    eexists; (split; [exact H|]); auto.
Qed.

Lemma manageSuccess_phases (o : Outcomes) (cr : Grafana) (st : common.ClusterState)
      (w : World) :
  exists d, statusUpdates (manageSuccess GetGrafanaPort o cr st w).2 = statusUpdates w ++ d
            /\ successThenFailure (phases d).
Proof.
  unfold manageSuccess, successThenFailure. run.
  destruct (config.GetConfigBool (cfg w) config.ConfigGrafanaDashboardsSynced false),
    (config.Dashboards (cfg w)), (onSuccessGet o), (apiObject w) as [inst|] eqn:Hobj;
    simpl;
    try destruct (DeepEqual _ (Status inst)); simpl;
    try destruct (onSuccessUpdate o); simpl; rewrite ?Hobj; simpl;
    try destruct (getGrafanaAdminUrl _ _ _); simpl;
    try match goal with
      | |- context [manageError ?o ?c ?e ?w0] =>
          destruct (manageError_phases o c e w0) as (d & -> & [Hd | Hd]); simpl
      end.
  all: first [ exists []; rewrite app_nil_r; split; [reflexivity | auto]
             | eexists; split; [reflexivity | simpl; auto]
             | eexists; split; [by rewrite <- app_assoc | unfold phases in *;
                                rewrite fmap_app; simpl; rewrite Hd; auto] ].
Qed.

Lemma Reconcile_phases (o : Outcomes) (w : World) :
  exists d, statusUpdates (Reconcile GetGrafanaPort o w).2 = statusUpdates w ++ d
            /\ successThenFailure (phases d).
Proof.
  unfold Reconcile. run.
  assert (Hnone : exists d, statusUpdates w = statusUpdates w ++ d
                            /\ successThenFailure (phases d)).
  { exists []. rewrite app_nil_r. split; [done | by left]. }
  assert (Herr : forall cr e,
             exists d, statusUpdates (manageError o cr e w).2 = statusUpdates w ++ d
                       /\ successThenFailure (phases d)).
  { intros cr e. destruct (manageError_phases o cr e w) as (d & H & Hd).
    exists d. split; [done|]. unfold successThenFailure. tauto. }
  destruct (onFetch o) as [e|].
  - simpl. by destruct (IsNotFound e).
  - destruct (apiObject w) as [obj|]; simpl; [|done].
    destruct (onRead o) as [st|e]; [|apply Herr].
    destruct (onRunAll o); [apply Herr|].
    destruct (onConfigMaps o); [apply Herr|].
    apply manageSuccess_phases.
Qed.

(** A cycle in which every collaborator succeeds and the endpoint resolves
    returns the fixed delay, leaves the intended success status persisted
    and sends one ready fact. *)
Lemma Reconcile_success (o : Outcomes) (w : World) (obj : Grafana)
      (st : common.ClusterState) :
  apiObject w = Some obj ->
  onFetch o = None -> onRead o = inl st -> onRunAll o = None -> onConfigMaps o = None ->
  onSuccessGet o = None -> onSuccessUpdate o = None ->
  (exists url, getGrafanaAdminUrl GetGrafanaPort obj st = inl url) ->
  exists url,
    let out := Reconcile GetGrafanaPort o w in
    out.1 = (reconcile.after config.RequeueDelay, None)
    /\ persisted out.2 = Some (successStatus (cfg w) obj)
    /\ ControllerEvents out.2 = ControllerEvents w ++ [readyFact obj url].
Proof.
  intros Hobj Hf Hr Ha Hc Hg Hu Hres.
  destruct (admin_url_resolves_spec GetGrafanaPort obj
              (withStatus obj (successStatus (cfg w) obj)) st eq_refl Hres) as [url Hurl].
  pose proof (manageSuccess_effect GetGrafanaPort o obj st w obj url Hobj Hg
                (or_intror Hu) Hurl) as (Hres1 & Hobj1 & _ & _ & Hev).
  exists url. unfold Reconcile, persisted. run.
  rewrite Hf, Hobj, Hr, Ha, Hc. rewrite Hres1, Hobj1, Hev. done.
Qed.

Lemma cycle_error_enters_error_path (o : Outcomes) (w : World) (obj : Grafana)
      (issue : error) :
  apiObject w = Some obj ->
  onFetch o = None ->
  CycleError GetGrafanaPort o (cfg w) obj issue ->
  exists cr w1 inst,
    Reconcile GetGrafanaPort o w = manageError o cr issue w1
    /\ apiObject w1 = Some inst
    /\ ControllerEvents w1 = ControllerEvents w.
Proof.
  intros Hobj Hfetch [e Hfail | st e Hr Ha Hc Hg | st e Hr Ha Hc Hg Hne Hu _].
  - by apply (failure_enters_error_path GetGrafanaPort o w obj).
  - unfold Reconcile, manageSuccess. run. rewrite Hfetch, Hobj, Hr, Ha, Hc, Hg.
    destruct (config.GetConfigBool (cfg w) config.ConfigGrafanaDashboardsSynced false),
      (config.Dashboards (cfg w)); simpl; by eexists _, _, _.
  - unfold Reconcile, manageSuccess, successStatus in *. run.
    rewrite Hfetch, Hobj, Hr, Ha, Hc, Hg, Hu.
    destruct (config.GetConfigBool (cfg w) config.ConfigGrafanaDashboardsSynced false),
      (config.Dashboards (cfg w)); simpl; rewrite ?Hobj; simpl;
      unfold DeepEqual; rewrite bool_decide_eq_false_2 by (intros E; by rewrite E in Hne);
      simpl; by eexists _, _, _.
Qed.

(** C8 (amended). Within one cycle the phases written to the persisted
    status are, in order, at most one [Reconciling] followed by at most one
    [Failing]: [Failing] is never followed by [Reconciling].  A fully
    successful cycle leaves phase [Reconciling] persisted.  An error that
    sends the cycle into the error path (one of the four reconciliation
    failures, a failing re-fetch of [manageSuccess], or a status write of
    [manageSuccess] refused for a reason other than a conflict) leaves phase
    [Failing] persisted, provided the re-fetch of the error path succeeds and
    its status write is not refused.  An error of the initial fetch leaves
    the persisted status untouched. *)
Theorem phases_within_cycle (o : Outcomes) (w : World) :
  successThenFailure (phases (issued w (Reconcile GetGrafanaPort o w).2))
  /\ (forall obj st,
        apiObject w = Some obj ->
        onFetch o = None -> onRead o = inl st -> onRunAll o = None ->
        onConfigMaps o = None -> onSuccessGet o = None -> onSuccessUpdate o = None ->
        (exists url, getGrafanaAdminUrl GetGrafanaPort obj st = inl url) ->
        Phase <$> persisted (Reconcile GetGrafanaPort o w).2 = Some PhaseReconciling)
  /\ (forall obj issue,
        apiObject w = Some obj -> onFetch o = None ->
        CycleError GetGrafanaPort o (cfg w) obj issue ->
        onErrorGet o = None -> onErrorUpdate o = None ->
        Phase <$> persisted (Reconcile GetGrafanaPort o w).2 = Some PhaseFailing)
  /\ (forall e,
        onFetch o = Some e -> IsNotFound e = false ->
        persisted (Reconcile GetGrafanaPort o w).2 = persisted w
        /\ issued w (Reconcile GetGrafanaPort o w).2 = []).
Proof.
  split; [|split; [|split]].
  - destruct (Reconcile_phases o w) as (d & Hlog & Hd).
    by rewrite (issued_app _ _ _ Hlog).
  - intros obj st Hobj Hf Hr Ha Hc Hg Hu Hres.
    destruct (Reconcile_success o w obj st Hobj Hf Hr Ha Hc Hg Hu Hres)
      as (url & _ & -> & _).
    done.
  - intros obj issue Hobj Hf Hfail Hget Hupd.
    destruct (cycle_error_enters_error_path o w obj issue Hobj Hf Hfail)
      as (cr & w1 & inst & -> & Hobj1 & _).
    destruct (manageError_handles o cr issue w1 inst Hobj1 Hget Hupd)
      as (_ & (s & -> & Hp & _) & _).
    simpl. by rewrite Hp.
  - intros e Hf Hnf. unfold Reconcile. run. rewrite Hf. simpl. rewrite Hnf. simpl.
    split; [done|]. by apply issued_same.
Qed.

(** C9. The client timeout published by a successful run: the default of
    five seconds when the spec supplies a negative value or none, and the
    supplied value itself when it is not negative. *)
Theorem published_client_timeout (o : Outcomes) (cr : Grafana)
        (st : common.ClusterState) (w : World) (inst : Grafana) :
  apiObject w = Some inst ->
  onSuccessGet o = None ->
  onSuccessUpdate o = None ->
  (exists url, getGrafanaAdminUrl GetGrafanaPort cr st = inl url) ->
  exists fact,
    ControllerEvents (manageSuccess GetGrafanaPort o cr st w).2
    = ControllerEvents w ++ [fact]
    /\ common.GrafanaReady fact = true
    /\ (forall seconds, suppliedTimeout cr = Some seconds -> (seconds < 0)%Z ->
                        common.ClientTimeout fact = 5)
    /\ (forall seconds, suppliedTimeout cr = Some seconds -> (0 <= seconds)%Z ->
                        common.ClientTimeout fact = seconds)
    /\ (suppliedTimeout cr = None -> common.ClientTimeout fact = 5).
Proof.
  intros Hobj Hg Hu Hres.
  destruct (admin_url_resolves_spec GetGrafanaPort cr
              (withStatus cr (successStatus (cfg w) cr)) st eq_refl Hres) as [url Hurl].
  pose proof (manageSuccess_effect GetGrafanaPort o cr st w inst url Hobj Hg
                (or_intror Hu) Hurl) as (_ & _ & _ & _ & Hev).
  exists (readyFact cr url). split; [done|]. split; [done|].
  unfold readyFact, effectiveTimeout, suppliedTimeout. simpl.
  destruct (Client (Spec cr)) as [client|]; [|by repeat split].
  destruct (TimeoutSeconds client) as [s|]; [|by repeat split].
  repeat split; intros; simplify_eq; case_decide; done || lia.
Qed.

End Cycle.

(** ** Concrete cycles *)

(** C1 (as stated) fails: after a state-read failure, a failing re-fetch in
    the error path, or a status write rejected for a reason other than a
    conflict, makes the cycle return that error with an empty result; the
    phase [Failing] is not persisted and no fact is sent. *)
Lemma error_path_counterexample :
  ReconcileFailure port0 (readFails (Some unavailable) None) obj0 readFailure
  /\ ~ handledAsFailure readFailure world0
         (Reconcile port0 (readFails (Some unavailable) None) world0)
  /\ (Reconcile port0 (readFails (Some unavailable) None) world0).1
     = (reconcile.empty, Some unavailable)
  /\ ReconcileFailure port0 (readFails None (Some unavailable)) obj0 readFailure
  /\ ~ handledAsFailure readFailure world0
         (Reconcile port0 (readFails None (Some unavailable)) world0)
  /\ (let out := Reconcile port0 (readFails None (Some unavailable)) world0 in
      out.1 = (reconcile.empty, Some unavailable)
      /\ persisted out.2 = Some (Status obj0)
      /\ ControllerEvents out.2 = []).
Proof.
  split; [by constructor|].
  split; [intros [H _]; vm_compute in H; discriminate|].
  split; [reflexivity|].
  split; [by constructor|].
  split; [intros [H _]; vm_compute in H; discriminate|].
  by vm_compute.
Qed.

(** C5 (as stated) fails: the teardown of a deleted object returns an empty
    result, whose requeue delay is zero and not the fixed delay. *)
Lemma teardown_counterexample :
  fetchNotFound (allGood stateNone) worldDeleted
  /\ (Reconcile port0 (allGood stateNone) worldDeleted).1 = (reconcile.empty, None)
  /\ reconcile.RequeueAfter (Reconcile port0 (allGood stateNone) worldDeleted).1.1
     <> config.RequeueDelay.
Proof.
  split; [by right|]. split; [reflexivity|]. by vm_compute.
Qed.


(** C8 (as stated) fails.  With every collaborator succeeding and no endpoint
    to resolve, one cycle on a fresh object first persists [Reconciling] and
    then persists [Failing].  And an error during the cycle does not always
    force [Failing]: after a state-read failure whose status write in the
    error path is refused, and after a failing initial fetch, the persisted
    phase is still the one the cycle found. *)
Lemma reconciling_then_failing_counterexample :
  (getGrafanaAdminUrl port0 obj0 stateNone = inr (New "failed to find admin url")
   /\ statusUpdates (Reconcile port0 (allGood stateNone) world0).2
      = [(reconciling0, None); (failing0 "failed to find admin url", None)]
   /\ persisted (Reconcile port0 (allGood stateNone) world0).2
      = Some (failing0 "failed to find admin url"))
  /\ (ReconcileFailure port0 (readFails None (Some unavailable)) obj0 readFailure
      /\ Phase <$> persisted (Reconcile port0 (readFails None (Some unavailable)) world0).2
         = Some PhaseUnset)
  /\ (Reconcile port0 (fetchFails unavailable) world0).1
       = (reconcile.empty, Some unavailable)
      /\ Phase <$> persisted (Reconcile port0 (fetchFails unavailable) world0).2
         = Some PhaseUnset.
Proof.
  split; [by vm_compute|]. split; [|by vm_compute].
  split; [by constructor | by vm_compute].
Qed.

(** C3 on the success path: a conflict answered to the status write of
    [manageSuccess] is handed to [manageError] like any failure.  A warning
    event is recorded, a second status write is issued in the same cycle with
    phase [Failing] and the conflict text, and, when that write is accepted,
    [Failing] is persisted and a not-ready fact is sent.  When the second
    write conflicts as well, the cycle ends with an empty result. *)
Theorem conflict_on_success_path_is_failure :
  (let out := Reconcile port0 (writeRejected stateRoute conflict None) world0 in
   out.1 = (reconcile.after config.RequeueDelay, None)
   /\ statusUpdates out.2
      = [(reconciling0, Some conflict); (failing0 (Error conflict), None)]
   /\ persisted out.2 = Some (failing0 (Error conflict))
   /\ recorder out.2
      = [{| EventType := "Warning"; Reason := "ProcessingError"; Note := Error conflict |}]
   /\ ControllerEvents out.2 = [common.notReady])
  /\ (let out := Reconcile port0 (writeRejected stateRoute conflict (Some conflict)) world0 in
      out.1 = (reconcile.empty, None)
      /\ statusUpdates out.2
         = [(reconciling0, Some conflict); (failing0 (Error conflict), Some conflict)]
      /\ recorder out.2
         = [{| EventType := "Warning"; Reason := "ProcessingError";
               Note := Error conflict |}]
      /\ ControllerEvents out.2 = []).
Proof. by vm_compute. Qed.

(** ** Instances of the properties *)

Lemma endpoint_priority_witness :
  getGrafanaAdminUrl port0 obj0 stateAll = inl "https://grafana.example.com"
  /\ getGrafanaAdminUrl port0 objClient stateAll = inl "http://10.0.0.7:3000".
Proof.
  split.
  - apply (proj1 (endpoint_priority port0 obj0 stateAll) route0); reflexivity.
  - apply (proj2 (endpoint_priority port0 objClient stateAll) service0); reflexivity.
Defined.

Lemma ingress_first_entry_witness :
  getGrafanaAdminUrl port0 obj0 stateIngress = inl "https://10.0.0.5".
Proof.
  apply (ingress_first_entry port0 obj0 stateIngress ingress0
           {| lbIP := "10.0.0.5"; lbHostname := "" |}
           [ {| lbIP := ""; lbHostname := "lb.example.com" |} ]);
    reflexivity.
Defined.

Lemma no_endpoint_is_error_witness :
  getGrafanaAdminUrl port0 obj0 stateNone = inr (New "failed to find admin url").
Proof.
  apply (proj1 (no_endpoint_is_error port0 obj0 stateNone));
    [right; split; [reflexivity | left; reflexivity] | reflexivity].
Defined.

Lemma unusable_ingress_falls_through_witness :
  getGrafanaAdminUrl port0 obj0 stateEmptyIngress = inl "http://10.0.0.7:3000".
Proof.
  apply (proj1 (unusable_ingress_falls_through port0 obj0 stateEmptyIngress ingressEmpty
                  eq_refl eq_refl eq_refl eq_refl eq_refl) service0).
  reflexivity.
Defined.

Lemma error_path_handled_witness :
  handledAsFailure readFailure world0 (Reconcile port0 (readFails None None) world0).
Proof.
  apply (proj1 (error_path_handled port0 (readFails None None) world0 obj0 readFailure
                  eq_refl eq_refl
                  (StateReadFailure port0 (readFails None None) obj0 readFailure eq_refl)));
    reflexivity.
Defined.

Lemma teardown_on_not_found_witness :
  (Reconcile port0 (allGood stateNone) worldDeleted).1 = (reconcile.empty, None).
Proof.
  apply (teardown_on_not_found port0 (allGood stateNone) worldDeleted).
  right. split; reflexivity.
Defined.


Lemma phases_within_cycle_witness :
  Phase <$> persisted (Reconcile port0 (allGood stateRoute) world0).2
  = Some PhaseReconciling
  /\ Phase <$> persisted (Reconcile port0 (readFails None None) world0).2
     = Some PhaseFailing
  /\ Phase <$> persisted (Reconcile port0 (refetchFails stateRoute unavailable) world0).2
     = Some PhaseFailing
  /\ Phase <$> persisted (Reconcile port0 (writeRejected stateRoute unavailable None)
                            world0).2
     = Some PhaseFailing
  /\ persisted (Reconcile port0 (fetchFails unavailable) world0).2 = persisted world0.
Proof.
  split; [|split; [|split; [|split]]].
  - apply (proj1 (proj2 (phases_within_cycle port0 (allGood stateRoute) world0))
             obj0 stateRoute); try reflexivity.
    eexists. reflexivity.
  - apply (proj1 (proj2 (proj2 (phases_within_cycle port0 (readFails None None) world0)))
             obj0 readFailure); try reflexivity.
    apply ReconcileError. by constructor.
  - apply (proj1 (proj2 (proj2 (phases_within_cycle port0
                                  (refetchFails stateRoute unavailable) world0)))
             obj0 unavailable); try reflexivity.
    by apply (RefetchError _ _ _ _ stateRoute).
  - apply (proj1 (proj2 (proj2 (phases_within_cycle port0
                                  (writeRejected stateRoute unavailable None) world0)))
             obj0 unavailable); try reflexivity.
    apply (WriteError _ _ _ _ stateRoute); try reflexivity. discriminate.
  - apply (proj2 (proj2 (proj2 (phases_within_cycle port0 (fetchFails unavailable) world0)))
             unavailable); reflexivity.
Defined.

Lemma published_client_timeout_witness :
  exists fact,
    ControllerEvents (manageSuccess port0 (allGood stateAll) objClient stateAll worldClient).2
    = [fact]
    /\ common.ClientTimeout fact = 5.
Proof.
  destruct (published_client_timeout port0 (allGood stateAll) objClient stateAll
              worldClient objClient eq_refl eq_refl eq_refl
              (ex_intro _ "http://10.0.0.7:3000" eq_refl))
    as (fact & Hev & _ & Hneg & _).
  exists fact. split; [exact Hev|].
  apply (Hneg (-5)); reflexivity.
Defined.

(** ** How a cycle ends *)

Lemma ErrorOutcome_frame (w0 w : World) (out : reconcile.Result * option error * World) :
  ControllerEvents w0 = ControllerEvents w ->
  recorder w0 = recorder w ->
  ErrorOutcome w0 out -> ErrorOutcome w out.
Proof.
  intros Hev Hrec [issue status H1 H2 H3 H4 H5 H6 H7 | issue err H1 H2 H3].
  - apply (Handled w out issue status); rewrite <- ?Hev, <- ?Hrec; done.
  - apply (Stopped w out issue err); rewrite <- ?Hev, <- ?Hrec; done.
Qed.

Lemma manageError_outcome (o : Outcomes) (cr : Grafana) (issue : error) (w : World) :
  ErrorOutcome w (manageError o cr issue w).
Proof.
  unfold manageError. run. fold (warning issue). fold (errorStatus cr issue).
  destruct (onErrorGet o) as [e|]; simpl.
  { by apply (Stopped _ _ issue (Some e)). }
  destruct (apiObject w) as [inst|] eqn:Hobj; simpl.
  2: { by apply (Stopped _ _ issue (Some notFound)). }
  unfold DeepEqual. case_bool_decide as Heq; simpl.
  - apply (Handled _ _ issue (errorStatus cr issue)); simpl; try done.
    + unfold persisted. simpl. rewrite ?Hobj. simpl. by rewrite ?Heq.
    + apply InvalidateDashboards_allInvalid.
  - destruct (onErrorUpdate o) as [e|]; simpl.
    + by apply (Stopped _ _ issue (if IsConflict e then None else Some e)).
    + rewrite ?Hobj. simpl.
      apply (Handled _ _ issue (errorStatus cr issue)); simpl; try done.
      apply InvalidateDashboards_allInvalid.
Qed.

Section Outcomes.

Variable GetGrafanaPort : Grafana -> Z.

Lemma manageSuccess_outcome (o : Outcomes) (cr : Grafana) (st : common.ClusterState)
      (w : World) :
  SuccessOutcome GetGrafanaPort cr st w (manageSuccess GetGrafanaPort o cr st w)
  \/ ErrorOutcome w (manageSuccess GetGrafanaPort o cr st w).
Proof.
  unfold SuccessOutcome, manageSuccess, successStatus, readyFact, effectiveTimeout,
    withStatus, persisted.
  run.
  destruct (config.GetConfigBool (cfg w) config.ConfigGrafanaDashboardsSynced false) eqn:Hs,
    (config.Dashboards (cfg w)) eqn:Hd, (onSuccessGet o), (apiObject w) as [inst|] eqn:Hobj;
    simpl;
    try destruct (DeepEqual _ (Status inst)) eqn:Heq; simpl;
    try destruct (onSuccessUpdate o); simpl; rewrite ?Hobj; simpl;
    try destruct (getGrafanaAdminUrl _ _ _) as [url|e'] eqn:Hurl; simpl;
    try (right;
         match goal with
         | |- ErrorOutcome w (manageError ?o ?c ?e ?w0) =>
             by apply (ErrorOutcome_frame w0 w), manageError_outcome
         end).
  all: left; exists url; rewrite ?GetConfigBool_SetDashboards, ?Hs, ?Hd, ?Hobj; simpl.
  all: repeat match goal with |- _ /\ _ => split end; try done;
    try (unfold DeepEqual in Heq; apply bool_decide_eq_true_1 in Heq; by rewrite <- Heq).
  all: do 2 f_equal; destruct (Client (Spec cr)) as [[[seconds|] ?]|]; simpl; try done;
    unfold common.setClientTimeout, DefaultClientTimeoutSeconds; simpl; f_equal;
    try match goal with
      | |- context [(?s <? 0)%Z] => destruct (Z.ltb_spec s 0); case_decide; done || lia
      end.
Qed.

Lemma Reconcile_outcome (o : Outcomes) (w : World) :
  CycleOutcome GetGrafanaPort o w (Reconcile GetGrafanaPort o w).
Proof.
  unfold Reconcile. run.
  assert (Hdown : forall w0 : World,
             ControllerEvents w0 = ControllerEvents w -> recorder w0 = recorder w ->
             statusUpdates w0 = statusUpdates w ->
             CycleOutcome GetGrafanaPort o w
               (reconcile.empty, None,
                {| apiObject := apiObject w0;
                   cfg := config.Cleanup true
                            (config.RemoveConfigItem config.ConfigDashboardLabelSelector
                               (cfg w0));
                   ControllerEvents := ControllerEvents w0 ++ [common.notReady];
                   recorder := recorder w0; statusUpdates := statusUpdates w0 |})).
  { intros w0 Hev Hrec Hlog. apply TornDown; simpl; congruence. }
  destruct (onFetch o) as [e|]; simpl.
  - destruct (IsNotFound e) eqn:Hnf; simpl; [by apply Hdown|].
    by apply (FetchFailed _ _ _ _ e).
  - destruct (apiObject w) as [obj|] eqn:Hobj; simpl; [|by apply Hdown].
    destruct (onRead o) as [st|e] eqn:Hr; [|apply Failed, manageError_outcome].
    destruct (onRunAll o); [apply Failed, manageError_outcome|].
    destruct (onConfigMaps o); [apply Failed, manageError_outcome|].
    destruct (manageSuccess_outcome o obj st w) as [H | H].
    + by apply (Succeeded _ _ _ _ obj st).
    + by apply Failed.
Qed.

End Outcomes.

(** ** Further properties of endpoint resolution *)

Section ResolverCases.

Variable GetGrafanaPort : Grafana -> Z.

(** X1. A hostname named in the spec of the object takes precedence inside the
    ingress tier: with [preferService] false, no route and an ingress
    present, the result is [https://<hostname>] whatever the load-balancer
    entries of the ingress and whatever service exists. *)
Theorem hostname_override_wins (cr : Grafana) (state : common.ClusterState)
        (ing : IngressResource) (i : GrafanaIngressSpec) :
  prefersService cr = false ->
  common.GrafanaRoute state = None ->
  common.GrafanaIngress state = Some ing ->
  Ingress (Spec cr) = Some i ->
  Hostname i <> "" ->
  getGrafanaAdminUrl GetGrafanaPort cr state = inl ("https://" +:+ Hostname i).
Proof.
  intros Hp Hr Hi Hs Hh. unfold getGrafanaAdminUrl.
  fold (prefersService cr). rewrite Hp, Hr, Hi, Hs.
  by rewrite bool_decide_eq_true_2.
Qed.

(** X2. Resolution fails exactly when no tier matches: the error is always
    "failed to find admin url", and it is returned if and only if there is no
    service and either [preferService] is set or there is neither a route nor
    a usable ingress. *)
Theorem admin_url_error_iff (cr : Grafana) (state : common.ClusterState) (e : error) :
  getGrafanaAdminUrl GetGrafanaPort cr state = inr e
  <-> (e = New "failed to find admin url"
       /\ common.GrafanaService state = None
       /\ (prefersService cr = true \/
           (common.GrafanaRoute state = None /\
            (common.GrafanaIngress state = None \/
             exists ing, common.GrafanaIngress state = Some ing /\
                         hostnameOverride cr = false /\ LoadBalancer ing = [])))).
Proof.
  split.
  - unfold getGrafanaAdminUrl, prefersService, hostnameOverride.
    destruct (match Client (Spec cr) with Some c => PreferService c | None => false end);
      destruct (common.GrafanaRoute state) as [route|],
        (common.GrafanaIngress state) as [ing|],
        (common.GrafanaService state) as [svc|]; simpl;
      try destruct (Ingress (Spec cr)) as [i|]; simpl;
      repeat case_bool_decide; simpl;
      try (destruct (LoadBalancer ing) as [|entry rest] eqn:Hl; simpl;
           repeat case_bool_decide; simpl);
      intros Hres; simplify_eq;
      (split; [done|]); (split; [done|]);
      first [ by left
            | right; split; [done|]; first [by left | right; exists ing; done ] ].
  - intros (-> & Hs & Hnone). rewrite service_tier by done. by rewrite Hs.
Qed.

(** X3. Every resolved URL has one of two shapes: an [https://] URL taken from
    the route or the ingress, which only happens with [preferService] false,
    or the URL derived from the service that is present. *)
Theorem admin_url_shape (cr : Grafana) (state : common.ClusterState) (url : string) :
  getGrafanaAdminUrl GetGrafanaPort cr state = inl url ->
  (prefersService cr = false /\ exists host, url = "https://" +:+ host)
  \/ (exists svc, common.GrafanaService state = Some svc
                  /\ url = serviceUrl (GetGrafanaPort cr) svc).
Proof.
  destruct (prefersService cr) eqn:Hp.
  - rewrite service_tier by (by left).
    destruct (common.GrafanaService state) as [svc|]; [|done].
    intros H. simplify_eq. right. by exists svc.
  - unfold getGrafanaAdminUrl. fold (prefersService cr). rewrite Hp.
    destruct (common.GrafanaRoute state) as [route|].
    { intros H. simplify_eq. left. split; [done|]. by eexists. }
    destruct (common.GrafanaIngress state) as [ing|] eqn:Hi.
    + destruct (hostnameOverride cr) eqn:Ho.
      * unfold hostnameOverride in Ho.
        destruct (Ingress (Spec cr)) as [i|]; [|done]. rewrite Ho.
        intros H. simplify_eq. left. split; [done|]. by eexists.
      * assert (Hscan : match Ingress (Spec cr) with
                        | Some i =>
                            if bool_decide (Hostname i <> "")
                            then Some (Sprintf_https (Hostname i))
                            else forRange
                                   (fun ingress : LoadBalancerIngress =>
                                      if bool_decide (lbHostname ingress <> "")
                                      then Some (Sprintf_https (lbHostname ingress))
                                      else Some (Sprintf_https (lbIP ingress)))
                                   (LoadBalancer ing)
                        | None =>
                            forRange
                              (fun ingress : LoadBalancerIngress =>
                                 if bool_decide (lbHostname ingress <> "")
                                 then Some (Sprintf_https (lbHostname ingress))
                                 else Some (Sprintf_https (lbIP ingress)))
                              (LoadBalancer ing)
                        end
                        = match LoadBalancer ing with
                          | [] => None
                          | entry :: _ => Some (entryUrl entry)
                          end).
        { unfold hostnameOverride in Ho.
          destruct (Ingress (Spec cr)) as [i|]; rewrite ?Ho;
            destruct (LoadBalancer ing) as [|entry rest]; simpl; try done;
            unfold entryUrl, Sprintf_https; repeat case_bool_decide; done. }
        rewrite Hscan.
        destruct (LoadBalancer ing) as [|entry rest].
        -- destruct (common.GrafanaService state) as [svc|]; [|done].
           intros H. right. exists svc. split; [done|].
           unfold serviceUrl, Sprintf_http in *.
           repeat case_bool_decide; simpl in *; simplify_eq; try done; tauto.
        -- intros H. simplify_eq. left. split; [done|].
           unfold entryUrl. case_bool_decide; by eexists.
    + destruct (common.GrafanaService state) as [svc|]; [|done].
      intros H. right. exists svc. split; [done|].
      unfold serviceUrl, Sprintf_http in *.
      repeat case_bool_decide; simpl in *; simplify_eq; try done; tauto.
Qed.

End ResolverCases.

(** ** Further properties of a cycle *)

Lemma app_one_inv {A : Type} (l : list A) (a b : A) : l ++ [a] = l ++ [b] -> a = b.
Proof. intros H. apply app_inv_head in H. congruence. Qed.

Lemma app_one_neq {A : Type} (l : list A) (a : A) : l <> l ++ [a].
Proof.
  intros H. rewrite <- (app_nil_r l) in H at 1. apply app_inv_head in H. discriminate.
Qed.

Lemma manageError_frame (o : Outcomes) (cr : Grafana) (issue : error) (w : World) :
  let out := manageError o cr issue w in
  Spec <$> apiObject out.2 = Spec <$> apiObject w
  /\ config.Values (cfg out.2) = config.Values (cfg w)
  /\ (is_Some (config.Dashboards (cfg w)) -> is_Some (config.Dashboards (cfg out.2))).
Proof.
  unfold manageError. run.
  destruct (onErrorGet o); simpl; [done|].
  destruct (apiObject w) as [inst|] eqn:Hobj; simpl; [|done].
  destruct (DeepEqual _ (Status inst)); simpl.
  - rewrite ?Hobj. repeat split; try done. intros [m ->]. by eexists.
  - destruct (onErrorUpdate o); simpl; rewrite ?Hobj; simpl; [done|].
    repeat split; try done. intros [m ->]. by eexists.
Qed.

Section CycleProperties.

Variable GetGrafanaPort : Grafana -> Z.

Lemma manageSuccess_frame (o : Outcomes) (cr : Grafana) (st : common.ClusterState)
      (w : World) :
  let out := manageSuccess GetGrafanaPort o cr st w in
  Spec <$> apiObject out.2 = Spec <$> apiObject w
  /\ config.Values (cfg out.2) = config.Values (cfg w)
  /\ (is_Some (config.Dashboards (cfg w)) -> is_Some (config.Dashboards (cfg out.2)))
  /\ (config.GetConfigBool (cfg w) config.ConfigGrafanaDashboardsSynced false = false ->
      is_Some (config.Dashboards (cfg out.2))).
Proof.
  unfold manageSuccess. run.
  destruct (config.GetConfigBool (cfg w) config.ConfigGrafanaDashboardsSynced false) eqn:Hs,
    (config.Dashboards (cfg w)) eqn:Hd, (onSuccessGet o), (apiObject w) as [inst|] eqn:Hobj;
    simpl;
    try destruct (DeepEqual _ (Status inst)); simpl;
    try destruct (onSuccessUpdate o); simpl; rewrite ?Hobj; simpl;
    try destruct (getGrafanaAdminUrl _ _ _); simpl;
    try match goal with
      | |- context [manageError ?o ?c ?e ?w0] =>
          destruct (manageError_frame o c e w0) as (-> & -> & Hsome); simpl in *;
          rewrite ?Hobj, ?Hd in *; simpl
      end;
    rewrite ?Hd; repeat split; try done; intros; eauto;
    by rewrite Hobj.
Qed.

(** X4. What a cycle returns: the result is either empty or the fixed delay;
    an error is only ever returned with an empty result and with no fact
    sent; and the fixed delay is only ever returned after exactly one fact
    has been sent. *)
Theorem result_contract (o : Outcomes) (w : World) :
  let out := Reconcile GetGrafanaPort o w in
  (out.1.1 = reconcile.empty \/ out.1.1 = reconcile.after config.RequeueDelay)
  /\ (forall e, out.1.2 = Some e ->
                out.1.1 = reconcile.empty /\ ControllerEvents out.2 = ControllerEvents w)
  /\ (out.1.1 = reconcile.after config.RequeueDelay ->
      exists fact, ControllerEvents out.2 = ControllerEvents w ++ [fact]).
Proof.
  simpl.
  destruct (Reconcile_outcome GetGrafanaPort o w)
    as [H1 H2 H3 H4 | e Hnf -> | obj st Hobj Hr (url & Hurl & H1 & H2 & H3 & H4)
        | [issue status H1 H2 H3 H4 H5 H6 H7 | issue err H1 H2 H3]];
    rewrite ?H1; simpl.
  - split; [by left|]. split; [done|]. intros H. by vm_compute in H.
  - split; [by left|]. split; [done|]. intros H. by vm_compute in H.
  - split; [by right|]. split; [done|]. intros _. by eexists.
  - split; [by right|]. split; [done|]. intros _. by eexists.
  - split; [by left|]. split; [done|]. intros H. by vm_compute in H.
Qed.

(** X5. What a ready fact implies about the cycle that sent it: if a cycle
    has sent a fact with [GrafanaReady] set, then at the end of that cycle the
    persisted phase is [Reconciling] with message "success", the cycle returns
    the fixed delay and no error, no warning was recorded, and the fact
    carries a non-empty admin URL and a client timeout that is not
    negative. *)
Theorem ready_fact_implies_reconciling (o : Outcomes) (w : World)
        (fact : common.ControllerState) :
  let out := Reconcile GetGrafanaPort o w in
  ControllerEvents out.2 = ControllerEvents w ++ [fact] ->
  common.GrafanaReady fact = true ->
  out.1 = (reconcile.after config.RequeueDelay, None)
  /\ (exists status, persisted out.2 = Some status
                     /\ Phase status = PhaseReconciling /\ Message status = "success")
  /\ recorder out.2 = recorder w
  /\ common.AdminUrl fact <> ""
  /\ (0 <= common.ClientTimeout fact)%Z.
Proof.
  simpl. intros Hev Hready.
  destruct (Reconcile_outcome GetGrafanaPort o w)
    as [H1 H2 H3 H4 | e Hnf E | obj st Hobj Hr (url & Hurl & H1 & H2 & H3 & H4)
        | [issue status H1 H2 H3 H4 H5 H6 H7 | issue err H1 H2 H3]].
  - rewrite H2 in Hev. apply app_one_inv in Hev. by subst.
  - rewrite E in Hev. simpl in Hev. by apply app_one_neq in Hev.
  - rewrite H2 in Hev. apply app_one_inv in Hev. subst fact.
    split; [done|]. split; [by eexists|]. split; [done|]. split.
    + simpl. intros ->. by apply admin_url_nonempty in Hurl.
    + simpl. unfold effectiveTimeout.
      destruct (Client (Spec obj)) as [c|]; [|lia].
      destruct (TimeoutSeconds c); [|lia]. case_decide; lia.
  - rewrite H2 in Hev. apply app_one_inv in Hev. by subst.
  - rewrite H2 in Hev. by apply app_one_neq in Hev.
Qed.

(** X6. A cycle sends at most one fact.  The fact is either the not-ready
    fact, whose other fields are all zero, or the ready fact of the fetched
    object: its selectors, the resolved URL and its effective timeout. *)
Theorem facts_sent (o : Outcomes) (w : World) :
  exists l,
    ControllerEvents (Reconcile GetGrafanaPort o w).2 = ControllerEvents w ++ l
    /\ (l = [] \/ l = [common.notReady]
        \/ exists obj st url,
             apiObject w = Some obj /\ onRead o = inl st
             /\ getGrafanaAdminUrl GetGrafanaPort
                  (withStatus obj (successStatus (cfg w) obj)) st = inl url
             /\ l = [readyFact obj url]).
Proof.
  destruct (Reconcile_outcome GetGrafanaPort o w)
    as [H1 H2 H3 H4 | e Hnf -> | obj st Hobj Hr (url & Hurl & H1 & H2 & H3 & H4)
        | [issue status H1 H2 H3 H4 H5 H6 H7 | issue err H1 H2 H3]].
  - exists [common.notReady]. auto.
  - exists []. rewrite app_nil_r. auto.
  - exists [readyFact obj url]. split; [done|]. right. right. by exists obj, st, url.
  - exists [common.notReady]. auto.
  - exists []. rewrite app_nil_r. auto.
Qed.

(** X7. [manageError] records exactly one warning event with reason
    "ProcessingError" and the text of the failure, whatever the client
    answers afterwards; a whole cycle records at most one such event. *)
Theorem warning_recorded (o : Outcomes) (w : World) :
  (forall cr issue,
      recorder (manageError o cr issue w).2 = recorder w ++ [warning issue])
  /\ (recorder (Reconcile GetGrafanaPort o w).2 = recorder w
      \/ exists issue,
           recorder (Reconcile GetGrafanaPort o w).2 = recorder w ++ [warning issue]).
Proof.
  split.
  - intros cr issue. unfold manageError. run. fold (warning issue).
    destruct (onErrorGet o); simpl; [done|].
    destruct (apiObject w) as [inst|]; simpl; [|done].
    destruct (DeepEqual _ (Status inst)); simpl; [done|].
    by destruct (onErrorUpdate o).
  - destruct (Reconcile_outcome GetGrafanaPort o w)
      as [H1 H2 H3 H4 | e Hnf -> | obj st Hobj Hr (url & Hurl & H1 & H2 & H3 & H4)
          | [issue status H1 H2 H3 H4 H5 H6 H7 | issue err H1 H2 H3]];
      eauto.
Qed.

(** The writes of one run of [manageSuccess]: at most one of the intended
    success status, then at most one of a failure status built on it. *)
Lemma manageSuccess_writes (o : Outcomes) (cr : Grafana) (st : common.ClusterState)
      (w : World) :
  exists d0 d1,
    statusUpdates (manageSuccess GetGrafanaPort o cr st w).2 = statusUpdates w ++ d0 ++ d1
    /\ (d0 = [] \/ exists r, d0 = [(successStatus (cfg w) cr, r)])
    /\ (d1 = [] \/ exists issue r,
           d1 = [(errorStatus (withStatus cr (successStatus (cfg w) cr)) issue, r)]).
Proof.
  unfold manageSuccess, successStatus, withStatus. run.
  destruct (config.GetConfigBool (cfg w) config.ConfigGrafanaDashboardsSynced false),
    (config.Dashboards (cfg w)), (onSuccessGet o), (apiObject w) as [inst|] eqn:Hobj;
    simpl;
    try destruct (DeepEqual _ (Status inst)); simpl;
    try destruct (onSuccessUpdate o); simpl; rewrite ?Hobj; simpl;
    try destruct (getGrafanaAdminUrl _ _ _); simpl;
    try match goal with
      | |- context [manageError ?o ?c ?e ?w0] =>
          destruct (manageError_log o c e w0) as (d & -> & Hd); simpl
      end.
  all: first
         [ exists [], d; simpl; split; [reflexivity|]; split; [by left|];
           destruct Hd as [-> | [r ->]]; [by left | right; by eexists _, _]
         | eexists [_], d; rewrite <- app_assoc; simpl; split; [reflexivity|];
           split; [right; by eexists|];
           destruct Hd as [-> | [r ->]]; [by left | right; by eexists _, _]
         | exists [], []; rewrite app_nil_r; split; [reflexivity|]; split; by left
         | eexists [_], []; split; [reflexivity|]; split; [right; by eexists | by left] ].
Qed.

(** X9. The installed-dashboards map in every status [manageSuccess] writes,
    on the success path and on the error path it may enter: it is the map
    cached in the configuration store when the dashboards-synced flag is set,
    and the map the object already carried otherwise.  Without the flag, a nil
    map in the store is replaced, so the store holds a map afterwards. *)
Theorem dashboards_in_status (o : Outcomes) (cr : Grafana) (st : common.ClusterState)
        (w : World) :
  let out := manageSuccess GetGrafanaPort o cr st w in
  let synced := config.GetConfigBool (cfg w) config.ConfigGrafanaDashboardsSynced false in
  (forall status r, (status, r) ∈ issued w out.2 ->
      InstalledDashboards status
      = if synced then config.Dashboards (cfg w) else InstalledDashboards (Status cr))
  /\ (synced = false -> is_Some (config.Dashboards (cfg out.2))).
Proof.
  simpl. split.
  - intros status r Hin.
    destruct (manageSuccess_writes o cr st w) as (d0 & d1 & Hlog & Hd0 & Hd1).
    rewrite (issued_app _ _ _ Hlog) in Hin.
    apply elem_of_app in Hin as [Hin | Hin].
    + destruct Hd0 as [-> | [r0 ->]]; [by apply elem_of_nil in Hin|].
      apply list_elem_of_singleton in Hin. by simplify_eq.
    + destruct Hd1 as [-> | (issue & r1 & ->)]; [by apply elem_of_nil in Hin|].
      apply list_elem_of_singleton in Hin. by simplify_eq.
  - apply manageSuccess_frame.
Qed.

Lemma Reconcile_enters_success (o : Outcomes) (w : World) (obj : Grafana)
      (st : common.ClusterState) :
  apiObject w = Some obj ->
  onFetch o = None -> onRead o = inl st -> onRunAll o = None -> onConfigMaps o = None ->
  Reconcile GetGrafanaPort o w = manageSuccess GetGrafanaPort o obj st w.
Proof.
  intros Hobj Hf Hr Ha Hc. unfold Reconcile. run. by rewrite Hf, Hobj, Hr, Ha, Hc.
Qed.

Lemma Reconcile_enters_error (o : Outcomes) (w : World) (obj : Grafana) (e : error) :
  apiObject w = Some obj ->
  EarlyFailure o e ->
  Reconcile GetGrafanaPort o w = manageError o obj e w.
Proof.
  intros Hobj (Hf & [Hr | [(st & Hr & Ha) | (st & Hr & Ha & Hc)]]);
    unfold Reconcile; run; by rewrite Hf, Hobj, Hr, ?Ha, ?Hc.
Qed.

(** X10. Steady state after success: once a cycle has converged, the next
    converging cycle finds the intended status already persisted; it issues no
    status write, leaves the persisted status as it is, and again returns the
    fixed delay with no error. *)
Theorem steady_state_after_success (o1 o2 : Outcomes) (w : World) (obj : Grafana)
        (st1 st2 : common.ClusterState) :
  apiObject w = Some obj ->
  Converges GetGrafanaPort o1 obj st1 -> onSuccessUpdate o1 = None ->
  Converges GetGrafanaPort o2 obj st2 ->
  let w1 := (Reconcile GetGrafanaPort o1 w).2 in
  let out := Reconcile GetGrafanaPort o2 w1 in
  issued w1 out.2 = []
  /\ persisted out.2 = persisted w1
  /\ Phase <$> persisted out.2 = Some PhaseReconciling
  /\ out.1 = (reconcile.after config.RequeueDelay, None).
Proof.
  intros Hobj (Hf1 & Hr1 & Ha1 & Hc1 & Hg1 & Hres1) Hu1
         (Hf2 & Hr2 & Ha2 & Hc2 & Hg2 & Hres2). simpl.
  rewrite (Reconcile_enters_success o1 w obj st1) by done.
  set (s := successStatus (cfg w) obj).
  destruct (admin_url_resolves_spec GetGrafanaPort obj (withStatus obj s) st1
              eq_refl Hres1) as [url1 Hurl1].
  pose proof (manageSuccess_effect GetGrafanaPort o1 obj st1 w obj url1 Hobj Hg1
                (or_intror Hu1) Hurl1) as (_ & Hobj1 & _ & Hst1 & _).
  destruct (manageSuccess_frame o1 obj st1 w) as (_ & Hval & _).
  set (w1 := (manageSuccess GetGrafanaPort o1 obj st1 w).2) in *.
  fold s in Hobj1, Hst1.
  rewrite (Reconcile_enters_success o2 w1 (withStatus obj s) st2) by done.
  assert (Hs2 : successStatus (cfg w1) (withStatus obj s) = s).
  { clear Hobj1. unfold s, successStatus, config.GetConfigBool in Hst1 |- *.
    rewrite Hval in *. simpl.
    destruct (config.Values (cfg w) !! config.ConfigGrafanaDashboardsSynced)
      as [[[]| |]|]; simpl in *; first [exact Hst1 | done]. }
  destruct (admin_url_resolves_spec GetGrafanaPort obj
              (withStatus (withStatus obj s) (successStatus (cfg w1) (withStatus obj s)))
              st2 eq_refl Hres2) as [url2 Hurl2].
  assert (Heq : DeepEqual (successStatus (cfg w1) (withStatus obj s))
                  (Status (withStatus obj s)) = true).
  { rewrite Hs2. by apply bool_decide_eq_true_2. }
  pose proof (manageSuccess_effect GetGrafanaPort o2 (withStatus obj s) st2 w1
                (withStatus obj s) url2 Hobj1 Hg2 (or_introl Heq) Hurl2)
    as (Hres & Hobj2 & Hlog2 & _ & _).
  rewrite Heq, app_nil_r in Hlog2.
  split; [by apply issued_same|].
  unfold persisted. rewrite Hobj2, Hobj1, Hs2. done.
Qed.

(** X11. Steady state after failure: when a cycle has failed before the status
    path and its error path has completed, a next cycle failing with the same
    error finds the failure status already persisted; it issues no status
    write, and its error path still invalidates the dashboards, sends the
    not-ready fact and returns the fixed delay. *)
Theorem steady_state_after_failure (o1 o2 : Outcomes) (w : World) (obj : Grafana)
        (e : error) :
  apiObject w = Some obj ->
  EarlyFailure o1 e -> onErrorGet o1 = None -> onErrorUpdate o1 = None ->
  EarlyFailure o2 e -> onErrorGet o2 = None ->
  let w1 := (Reconcile GetGrafanaPort o1 w).2 in
  let out := Reconcile GetGrafanaPort o2 w1 in
  issued w1 out.2 = []
  /\ persisted out.2 = Some (errorStatus obj e)
  /\ ControllerEvents out.2 = ControllerEvents w1 ++ [common.notReady]
  /\ out.1 = (reconcile.after config.RequeueDelay, None).
Proof.
  intros Hobj Hfail1 Hg1 Hu1 Hfail2 Hg2. simpl.
  rewrite (Reconcile_enters_error o1 w obj e Hobj Hfail1).
  pose proof (manageError_effect o1 obj e w) as H1. simpl in H1.
  rewrite Hg1, Hobj, Hu1 in H1.
  assert (Hobj1 : exists inst, apiObject (manageError o1 obj e w).2 = Some inst
                               /\ Status inst = errorStatus obj e).
  { destruct (DeepEqual (errorStatus obj e) (Status obj)) eqn:Heq.
    - exists obj. split; [apply H1|].
      unfold DeepEqual in Heq. by apply bool_decide_eq_true_1 in Heq.
    - eexists. split; [apply H1|]. done. }
  destruct Hobj1 as (inst & Hobj1 & Hst).
  set (w1 := (manageError o1 obj e w).2) in *.
  rewrite (Reconcile_enters_error o2 w1 inst e Hobj1 Hfail2).
  assert (Hsame : errorStatus inst e = errorStatus obj e).
  { unfold errorStatus. by rewrite Hst. }
  pose proof (manageError_effect o2 inst e w1) as H2. simpl in H2.
  rewrite Hg2, Hobj1, Hsame, Hst in H2.
  unfold DeepEqual in H2. rewrite bool_decide_eq_true_2 in H2 by done.
  destruct H2 as [Hobj2 Hlog2].
  split; [by apply issued_same|].
  split; [unfold persisted; by rewrite Hobj2; simpl; rewrite Hst|].
  unfold manageError. run. rewrite Hg2, Hobj1. fold (errorStatus inst e).
  rewrite Hsame, Hst. unfold DeepEqual. rewrite bool_decide_eq_true_2 by done.
  done.
Qed.

End CycleProperties.

(** ** Instances of the further properties *)

Lemma hostname_override_wins_witness :
  getGrafanaAdminUrl port0 objHostname stateIngress = inl "https://grafana.internal".
Proof.
  apply (hostname_override_wins port0 objHostname stateIngress ingress0
           {| Hostname := "grafana.internal" |});
    first [reflexivity | discriminate].
Defined.

Lemma admin_url_shape_witness :
  (prefersService obj0 = false
   /\ exists host, "https://grafana.example.com" = "https://" +:+ host)
  \/ (exists svc, common.GrafanaService stateAll = Some svc
                  /\ "https://grafana.example.com" = serviceUrl (port0 obj0) svc).
Proof.
  apply (admin_url_shape port0 obj0 stateAll "https://grafana.example.com").
  reflexivity.
Defined.

Lemma result_contract_witness :
  exists fact,
    ControllerEvents (Reconcile port0 (allGood stateRoute) world0).2
    = ControllerEvents world0 ++ [fact].
Proof.
  apply (proj2 (proj2 (result_contract port0 (allGood stateRoute) world0))).
  reflexivity.
Defined.

Lemma ready_fact_implies_reconciling_witness :
  (Reconcile port0 (allGood stateRoute) world0).1
  = (reconcile.after config.RequeueDelay, None).
Proof.
  apply (ready_fact_implies_reconciling port0 (allGood stateRoute) world0
           (readyFact obj0 "https://grafana.example.com"));
    reflexivity.
Defined.

Lemma dashboards_in_status_witness :
  is_Some (config.Dashboards
             (cfg (manageSuccess port0 (allGood stateRoute) obj0 stateRoute world0).2)).
Proof.
  apply (proj2 (dashboards_in_status port0 (allGood stateRoute) obj0 stateRoute world0)).
  reflexivity.
Defined.

Lemma steady_state_after_success_witness :
  issued (Reconcile port0 (allGood stateRoute) world0).2
    (Reconcile port0 (allGood stateRoute)
       (Reconcile port0 (allGood stateRoute) world0).2).2 = [].
Proof.
  apply (steady_state_after_success port0 (allGood stateRoute) (allGood stateRoute)
           world0 obj0 stateRoute stateRoute);
    first [ reflexivity
          | repeat split; first [reflexivity | eexists; reflexivity] ].
Defined.

Lemma steady_state_after_failure_witness :
  issued (Reconcile port0 (readFails None None) world0).2
    (Reconcile port0 (readFails None None)
       (Reconcile port0 (readFails None None) world0).2).2 = [].
Proof.
  apply (steady_state_after_failure port0 (readFails None None) (readFails None None)
           world0 obj0 readFailure);
    first [ reflexivity | split; [reflexivity | left; reflexivity] ].
Defined.

Lemma manageError_write_rejected_witness :
  (manageError (readFails None (Some conflict)) obj0 readFailure world0).1
  = (reconcile.empty, None).
Proof.
  apply (manageError_write_rejected (readFails None (Some conflict)) obj0 readFailure
           conflict world0 obj0);
    first [reflexivity | discriminate].
Defined.
